(** * EDTSP: wire codec, membership registry and leader election

    A shallow embedding of the C sources

    - [src/platform/esp32/protocol.h]  constants, packed packet structures,
      [edtsp_header_valid] (the [protocol.h] the other files include);
    - [src/src/edtsp_core.c]           byte order helpers, packet builders
      and parsers;
    - [src/src/leader_election.c]      device table, timeout sweep, election;
    - [src/platform/pc/edtsp_pc.c]     packet handlers and dispatch.

    Conventions.  A C integer of width [w] is a [Z] in [0, 2^w); every place
    where C wraps has the reduction written out ([u8], [u16], [u32], [u64]).
    A pointer argument that the code tests against [NULL] is an [option]:
    [None] is the null pointer and [Some v] a valid pointer to contents [v];
    a function that writes through the pointer returns the contents after
    the call.  The file-scope variables of [leader_election.c] are the
    fields of one record that every operation takes and returns.  Each
    [printf] of the election module is an event of type [log_event]; an
    operation returns the events it printed, in order. *)

From Stdlib Require Import ZArith Lia List Bool.
From stdpp Require Import base strings list gmap.

Local Open Scope Z_scope.

(** ** Machine integers *)

Definition u8 (x : Z) : Z := x mod 2 ^ 8.
Definition u16 (x : Z) : Z := x mod 2 ^ 16.
Definition u32 (x : Z) : Z := x mod 2 ^ 32.
Definition u64 (x : Z) : Z := x mod 2 ^ 64.

Definition is_u8 (x : Z) : Prop := 0 <= x < 2 ^ 8.
Definition is_u16 (x : Z) : Prop := 0 <= x < 2 ^ 16.
Definition is_u32 (x : Z) : Prop := 0 <= x < 2 ^ 32.

(** ** protocol.h: constants *)

Definition EDTSP_MAGIC : Z := 0xED61.
Definition EDTSP_VERSION : Z := 1.
Definition EDTSP_MAX_PAYLOAD : Z := 255.
Definition EDTSP_HEARTBEAT_TIMEOUT_MS : Z := 5000.
Definition EDTSP_MAX_DEVICES : Z := 256.

Definition EDTSP_TYPE_DISCOVERY : Z := 1.
Definition EDTSP_TYPE_HEARTBEAT : Z := 2.
Definition EDTSP_TYPE_HANDSHAKE : Z := 3.
Definition EDTSP_TYPE_CONFIG : Z := 4.
Definition EDTSP_TYPE_DATA : Z := 5.

Definition EDTSP_ROLE_UNKNOWN : Z := 0.
Definition EDTSP_ROLE_SLAVE : Z := 1.
Definition EDTSP_ROLE_MASTER : Z := 2.

(** ** edtsp_core.c: byte order

    [edtsp_swap16] and [edtsp_swap32] are the functions of the
    [__EMBEDDED__] branch.  [x] is promoted to [int] in [edtsp_swap16], so
    the shifts do not wrap and the result is reduced by the [uint16_t]
    return type; in [edtsp_swap32] the left shifts are [uint32_t] shifts.
    On the little-endian hosts of the repository (x86 PC, ESP32) [htons],
    [ntohs], [htonl] and [ntohl] are these same swaps, so the four macros
    are defined by them in both branches. *)

Definition edtsp_swap16 (x : Z) : Z :=
  u16 (Z.lor (Z.shiftr x 8) (Z.shiftl x 8)).

Definition edtsp_swap32 (x : Z) : Z :=
  Z.lor (Z.lor (Z.lor (Z.land (Z.shiftr x 24) 0xFF)
                      (Z.land (Z.shiftr x 8) 0xFF00))
               (Z.land (u32 (Z.shiftl x 8)) 0xFF0000))
        (Z.land (u32 (Z.shiftl x 24)) 0xFF000000).

Definition EDTSP_HTONS := edtsp_swap16.
Definition EDTSP_HTONL := edtsp_swap32.
Definition EDTSP_NTOHS := edtsp_swap16.
Definition EDTSP_NTOHL := edtsp_swap32.

(** ** protocol.h: the header, and its validation *)

Record EDTSPHeader : Type := {
  magic : Z;        (* uint16_t *)
  type : Z;         (* uint8_t  *)
  source_id : Z;    (* uint32_t *)
  payload_len : Z   (* uint8_t  *)
}.

Definition sizeof_EDTSPHeader : Z := 8.

Definition edtsp_header_valid (header : option EDTSPHeader) : bool :=
  match header with
  | None => false
  | Some h =>
      if negb (magic h =? EDTSP_MAGIC) then false
      else if (type h <? EDTSP_TYPE_DISCOVERY) || (EDTSP_TYPE_DATA <? type h)
           then false
           else true
  end.

(** ** protocol.h: interface priorities and names *)

Definition EDTSP_IFACE_UNKNOWN : Z := 0.
Definition EDTSP_IFACE_ETH : Z := 1.
Definition EDTSP_IFACE_WIFI : Z := 2.
Definition EDTSP_IFACE_5G : Z := 3.

Definition edtsp_iface_priority (iface : Z) : Z :=
  if iface =? EDTSP_IFACE_ETH then 1
  else if iface =? EDTSP_IFACE_WIFI then 2
  else if iface =? EDTSP_IFACE_5G then 3
  else 99.

Definition edtsp_type_name (type0 : Z) : string :=
  if type0 =? EDTSP_TYPE_DISCOVERY then "DISCOVERY"
  else if type0 =? EDTSP_TYPE_HEARTBEAT then "HEARTBEAT"
  else if type0 =? EDTSP_TYPE_HANDSHAKE then "HANDSHAKE"
  else if type0 =? EDTSP_TYPE_CONFIG then "CONFIG"
  else if type0 =? EDTSP_TYPE_DATA then "DATA"
  else "UNKNOWN".

Definition edtsp_role_name (role0 : Z) : string :=
  if role0 =? EDTSP_ROLE_MASTER then "MASTER"
  else if role0 =? EDTSP_ROLE_SLAVE then "SLAVE"
  else if role0 =? EDTSP_ROLE_UNKNOWN then "UNKNOWN"
  else "INVALID".

Definition edtsp_iface_name (iface : Z) : string :=
  if iface =? EDTSP_IFACE_ETH then "ETHERNET"
  else if iface =? EDTSP_IFACE_WIFI then "WIFI"
  else if iface =? EDTSP_IFACE_5G then "5G"
  else "UNKNOWN".

(** ** edtsp_core.c: header initialisation and parsing *)

Definition edtsp_init_header (header : option EDTSPHeader)
    (type0 source_id0 payload_len0 : Z) : option EDTSPHeader :=
  match header with
  | None => None
  | Some _ =>
      Some {| magic := EDTSP_HTONS EDTSP_MAGIC;
              type := type0;
              source_id := EDTSP_HTONL source_id0;
              payload_len := payload_len0 |}
  end.

(** The header the builders write into a packet they have checked to be
    non-null. *)
Definition init_header_in (h : EDTSPHeader) (type0 source_id0 payload_len0 : Z)
    : EDTSPHeader :=
  default h (edtsp_init_header (Some h) type0 source_id0 payload_len0).

(** [edtsp_parse_header] converts in place and returns the verdict: the
    result is the returned [bool] and the header after the call. *)
Definition edtsp_parse_header (header : option EDTSPHeader)
    : bool * option EDTSPHeader :=
  match header with
  | None => (false, None)
  | Some h =>
      let h1 := {| magic := EDTSP_NTOHS (magic h);
                   type := type h;
                   source_id := EDTSP_NTOHL (source_id h);
                   payload_len := payload_len h |} in
      (edtsp_header_valid (Some h1), Some h1)
  end.

Definition zero_header : EDTSPHeader :=
  {| magic := 0; type := 0; source_id := 0; payload_len := 0 |}.

(** ** C strings and block copies

    A [char] or [uint8_t] array is a list of byte values.  A C string
    argument is the list of the bytes at the pointer; the string it denotes
    ends before the first NUL, or at the end of the list. *)

Fixpoint c_string (s : list Z) : list Z :=
  match s with
  | [] => []
  | c :: tl => if c =? 0 then [] else c :: c_string tl
  end.

(** [strncpy dest src n]: the first [n] bytes of [dest] become the string
    [src] cut to [n] characters and padded with NUL; the rest of [dest] is
    kept. *)
Definition strncpy (dest src : list Z) (n : nat) : list Z :=
  let s := take n (c_string src) in
  s ++ replicate (n - length s)%nat 0 ++ drop n dest.

(** [memcpy dest src n]: the first [n] bytes of [dest] become the first [n]
    bytes of [src]. *)
Definition memcpy (dest src : list Z) (n : nat) : list Z :=
  take n src ++ drop n dest.

(** ** The five packets: structures, builders, parsers *)

Module Discovery.

Record EDTSPDiscoveryPacket : Type := {
  header : EDTSPHeader;
  interface_type : Z;        (* uint8_t  *)
  version : Z;               (* uint8_t  *)
  device_name : list Z       (* char[32] *)
}.

Definition sizeof_EDTSPDiscoveryPacket : Z := 42.
Definition sizeof_device_name : nat := 32.

Definition zero : EDTSPDiscoveryPacket :=
  {| header := zero_header; interface_type := 0; version := 0;
     device_name := replicate sizeof_device_name 0 |}.

Definition edtsp_build_discovery (pkt : option EDTSPDiscoveryPacket)
    (source_id0 iface_type : Z) (device_name0 : option (list Z))
    : option EDTSPDiscoveryPacket :=
  match pkt with
  | None => None
  | Some _ =>
      let p := zero in
      let h := init_header_in (header p) EDTSP_TYPE_DISCOVERY source_id0
                 (u8 (sizeof_EDTSPDiscoveryPacket - sizeof_EDTSPHeader)) in
      Some {| header := h;
              interface_type := iface_type;
              version := EDTSP_VERSION;
              device_name :=
                match device_name0 with
                | Some name =>
                    strncpy (device_name p) name (sizeof_device_name - 1)
                | None => device_name p
                end |}
  end.

End Discovery.

Module Heartbeat.

Record EDTSPHeartbeatPacket : Type := {
  header : EDTSPHeader;
  role : Z;                  (* uint8_t  *)
  uptime_ms : Z;             (* uint32_t *)
  active_devices : Z         (* uint8_t  *)
}.

Definition sizeof_EDTSPHeartbeatPacket : Z := 14.

Definition edtsp_build_heartbeat (pkt : option EDTSPHeartbeatPacket)
    (source_id0 role0 uptime_ms0 active_devices0 : Z)
    : option EDTSPHeartbeatPacket :=
  match pkt with
  | None => None
  | Some _ =>
      let h := init_header_in zero_header EDTSP_TYPE_HEARTBEAT source_id0
                 (u8 (sizeof_EDTSPHeartbeatPacket - sizeof_EDTSPHeader)) in
      Some {| header := h;
              role := role0;
              uptime_ms := EDTSP_HTONL uptime_ms0;
              active_devices := active_devices0 |}
  end.

Definition edtsp_parse_heartbeat (pkt : option EDTSPHeartbeatPacket)
    : option EDTSPHeartbeatPacket :=
  match pkt with
  | None => None
  | Some p =>
      Some {| header := header p;
              role := role p;
              uptime_ms := EDTSP_NTOHL (uptime_ms p);
              active_devices := active_devices p |}
  end.

End Heartbeat.

Module Handshake.

Record EDTSPHandshakePacket : Type := {
  header : EDTSPHeader;
  handshake_step : Z;        (* uint8_t  *)
  target_id : Z;             (* uint32_t *)
  capabilities : Z;          (* uint16_t *)
  interface_type : Z         (* uint8_t  *)
}.

Definition sizeof_EDTSPHandshakePacket : Z := 16.

Definition edtsp_build_handshake (pkt : option EDTSPHandshakePacket)
    (source_id0 step target_id0 caps iface_type : Z)
    : option EDTSPHandshakePacket :=
  match pkt with
  | None => None
  | Some _ =>
      let h := init_header_in zero_header EDTSP_TYPE_HANDSHAKE source_id0
                 (u8 (sizeof_EDTSPHandshakePacket - sizeof_EDTSPHeader)) in
      Some {| header := h;
              handshake_step := step;
              target_id := EDTSP_HTONL target_id0;
              capabilities := EDTSP_HTONS caps;
              interface_type := iface_type |}
  end.

Definition edtsp_parse_handshake (pkt : option EDTSPHandshakePacket)
    : option EDTSPHandshakePacket :=
  match pkt with
  | None => None
  | Some p =>
      Some {| header := header p;
              handshake_step := handshake_step p;
              target_id := EDTSP_NTOHL (target_id p);
              capabilities := EDTSP_NTOHS (capabilities p);
              interface_type := interface_type p |}
  end.

End Handshake.

Module Config.

Record EDTSPConfigPacket : Type := {
  header : EDTSPHeader;
  target_id : Z;             (* uint32_t *)
  sensor_id : Z;             (* uint8_t  *)
  sampling_rate_ms : Z;      (* uint16_t *)
  enable : Z                 (* uint8_t  *)
}.

Definition sizeof_EDTSPConfigPacket : Z := 16.

Definition edtsp_build_config (pkt : option EDTSPConfigPacket)
    (source_id0 target_id0 sensor_id0 sampling_rate_ms0 enable0 : Z)
    : option EDTSPConfigPacket :=
  match pkt with
  | None => None
  | Some _ =>
      let h := init_header_in zero_header EDTSP_TYPE_CONFIG source_id0
                 (u8 (sizeof_EDTSPConfigPacket - sizeof_EDTSPHeader)) in
      Some {| header := h;
              target_id := EDTSP_HTONL target_id0;
              sensor_id := sensor_id0;
              sampling_rate_ms := EDTSP_HTONS sampling_rate_ms0;
              enable := enable0 |}
  end.

Definition edtsp_parse_config (pkt : option EDTSPConfigPacket)
    : option EDTSPConfigPacket :=
  match pkt with
  | None => None
  | Some p =>
      Some {| header := header p;
              target_id := EDTSP_NTOHL (target_id p);
              sensor_id := sensor_id p;
              sampling_rate_ms := EDTSP_NTOHS (sampling_rate_ms p);
              enable := enable p |}
  end.

End Config.

Module Data.

Record EDTSPDataPacket : Type := {
  header : EDTSPHeader;
  sensor_id : Z;             (* uint8_t     *)
  timestamp_ms : Z;          (* uint32_t    *)
  data_len : Z;              (* uint8_t     *)
  data : list Z              (* uint8_t[64] *)
}.

Definition sizeof_EDTSPDataPacket : Z := 78.
Definition sizeof_data : nat := 64.

(** [data0] is the [data] pointer: [None] when null, else the bytes it
    points to (at least [data_len0] of them). *)
Definition edtsp_build_data (pkt : option EDTSPDataPacket)
    (source_id0 sensor_id0 timestamp_ms0 : Z)
    (data0 : option (list Z)) (data_len0 : Z)
    : option EDTSPDataPacket :=
  match pkt, data0 with
  | Some p, Some bytes =>
      if 64 <? data_len0 then Some p
      else
        let h := init_header_in zero_header EDTSP_TYPE_DATA source_id0
                   (u8 (sizeof_EDTSPDataPacket - sizeof_EDTSPHeader)) in
        Some {| header := h;
                sensor_id := sensor_id0;
                timestamp_ms := EDTSP_HTONL timestamp_ms0;
                data_len := data_len0;
                data := memcpy (replicate sizeof_data 0) bytes
                          (Z.to_nat data_len0) |}
  | _, _ => pkt
  end.

Definition edtsp_parse_data (pkt : option EDTSPDataPacket)
    : option EDTSPDataPacket :=
  match pkt with
  | None => None
  | Some p =>
      Some {| header := header p;
              sensor_id := sensor_id p;
              timestamp_ms := EDTSP_NTOHL (timestamp_ms p);
              data_len := data_len p;
              data := data p |}
  end.

End Data.

(** ** leader_election.c *)

Module Election.

Record EDTSPDeviceInfo : Type := {
  device_id : Z;             (* uint32_t *)
  last_heartbeat_ms : Z;     (* uint64_t *)
  role : Z;                  (* uint8_t  *)
  active : bool
}.

(** The file-scope variables.  [device_list] is the whole array of
    [EDTSP_MAX_DEVICES] slots; [device_count] is a [uint8_t]. *)
Record state : Type := {
  device_list : list EDTSPDeviceInfo;
  device_count : Z;
  my_device_id : Z;
  my_role : Z
}.

(** What the module prints. *)
Inductive log_event : Type :=
| LogDeviceListFull
| LogNewDevice (id : Z)
| LogDeviceTimeout (id elapsed : Z)
| LogRoleChange (old_role new_role my_id master_id : Z).

Definition zero_device : EDTSPDeviceInfo :=
  {| device_id := 0; last_heartbeat_ms := 0; role := 0; active := false |}.

Definition edtsp_election_init (id : Z) : state :=
  {| device_list := replicate (Z.to_nat EDTSP_MAX_DEVICES) zero_device;
     device_count := 0;
     my_device_id := id;
     my_role := EDTSP_ROLE_UNKNOWN |}.

(** The slots a loop [for (i = 0; i < device_count; i++)] visits. *)
Definition tracked (st : state) : list EDTSPDeviceInfo :=
  take (Z.to_nat (device_count st)) (device_list st).

(** [find_loop l i id]: the scan of [find_device_index] over the slots [l]
    that start at index [i]. *)
Fixpoint find_loop (l : list EDTSPDeviceInfo) (i : Z) (id : Z) : Z :=
  match l with
  | [] => -1
  | d :: tl => if device_id d =? id then i else find_loop tl (i + 1) id
  end.

Definition find_device_index (st : state) (id : Z) : Z :=
  find_loop (tracked st) 0 id.

Definition set_device_id (id : Z) (d : EDTSPDeviceInfo) : EDTSPDeviceInfo :=
  {| device_id := id; last_heartbeat_ms := last_heartbeat_ms d;
     role := role d; active := active d |}.

(** The three assignments that end [edtsp_update_device]. *)
Definition refresh (timestamp_ms role0 : Z) (d : EDTSPDeviceInfo)
    : EDTSPDeviceInfo :=
  {| device_id := device_id d; last_heartbeat_ms := timestamp_ms;
     role := role0; active := true |}.

Definition set_inactive (d : EDTSPDeviceInfo) : EDTSPDeviceInfo :=
  {| device_id := device_id d; last_heartbeat_ms := last_heartbeat_ms d;
     role := role d; active := false |}.

Definition with_devices (l : list EDTSPDeviceInfo) (n : Z) (st : state)
    : state :=
  {| device_list := l; device_count := n;
     my_device_id := my_device_id st; my_role := my_role st |}.

Definition with_role (r : Z) (st : state) : state :=
  {| device_list := device_list st; device_count := device_count st;
     my_device_id := my_device_id st; my_role := r |}.

(** [device_count >= EDTSP_MAX_DEVICES] compares the promoted [uint8_t]
    with 256; [idx = device_count++] increments in [uint8_t]. *)
Definition edtsp_update_device (id timestamp_ms role0 : Z) (st : state)
    : state * list log_event :=
  let idx := find_device_index st id in
  if idx =? -1 then
    if EDTSP_MAX_DEVICES <=? device_count st then (st, [LogDeviceListFull])
    else
      let idx := device_count st in
      let l1 := alter (set_device_id id) (Z.to_nat idx) (device_list st) in
      let l2 := alter (refresh timestamp_ms role0) (Z.to_nat idx) l1 in
      (with_devices l2 (u8 (device_count st + 1)) st, [LogNewDevice id])
  else
    let l2 := alter (refresh timestamp_ms role0) (Z.to_nat idx)
                (device_list st) in
    (with_devices l2 (device_count st) st, []).

(** The loop of [edtsp_check_timeouts] over the slots [l]: the slots after
    the loop, [topology_changed], and the timeouts printed.  [elapsed] is a
    [uint64_t] difference. *)
Fixpoint sweep (current_time_ms : Z) (l : list EDTSPDeviceInfo)
    : list EDTSPDeviceInfo * bool * list log_event :=
  match l with
  | [] => ([], false, [])
  | d :: tl =>
      let '(tl', changed, lg) := sweep current_time_ms tl in
      if negb (active d) then (d :: tl', changed, lg)
      else
        let elapsed := u64 (current_time_ms - last_heartbeat_ms d) in
        if EDTSP_HEARTBEAT_TIMEOUT_MS <? elapsed
        then (set_inactive d :: tl', true,
              LogDeviceTimeout (device_id d) elapsed :: lg)
        else (d :: tl', changed, lg)
  end.

(** The loop of [edtsp_perform_election]: one step, and the whole scan. *)
Definition raise_highest (highest_id : Z) (d : EDTSPDeviceInfo) : Z :=
  if active d && (highest_id <? device_id d) then device_id d
  else highest_id.

Definition highest_active (st : state) : Z :=
  fold_left raise_highest (tracked st) (my_device_id st).

Definition edtsp_perform_election (st : state) : state * list log_event :=
  let highest_id := highest_active st in
  let old_role := my_role st in
  let new_role :=
    if highest_id =? my_device_id st then EDTSP_ROLE_MASTER
    else EDTSP_ROLE_SLAVE in
  (with_role new_role st,
   if negb (old_role =? new_role)
   then [LogRoleChange old_role new_role (my_device_id st) highest_id]
   else []).

Definition edtsp_check_timeouts (current_time_ms : Z) (st : state)
    : state * list log_event :=
  let n := Z.to_nat (device_count st) in
  let '(swept, topology_changed, lg) := sweep current_time_ms (tracked st) in
  let st1 := with_devices (swept ++ drop n (device_list st))
               (device_count st) st in
  if topology_changed then
    let '(st2, lg2) := edtsp_perform_election st1 in (st2, lg ++ lg2)
  else (st1, lg).

Definition edtsp_get_my_role (st : state) : Z := my_role st.

(** [count] is a [uint8_t]: [count++] wraps. *)
Definition edtsp_get_active_device_count (st : state) : Z :=
  fold_left (fun count d => if active d then u8 (count + 1) else count)
    (tracked st) 1.

Definition edtsp_is_master (st : state) : bool :=
  my_role st =? EDTSP_ROLE_MASTER.

(** The view the election reads: the identifiers of the tracked slots whose
    [active] flag is set. *)
Definition active_ids (st : state) : list Z :=
  device_id <$> filter (fun d => active d = true) (tracked st).

(** The array has its declared size and the counter fits its type. *)
Definition wf (st : state) : Prop :=
  length (device_list st) = Z.to_nat EDTSP_MAX_DEVICES /\
  0 <= device_count st < 2 ^ 8.

End Election.

(** ** edtsp_pc.c: handlers and dispatch *)

Module Pc.

Import Election.

(** What the receive path prints: its own lines, and those of the election
    module it calls. *)
Inductive event : Type :=
| RxDiscovery (source : Z) (name : list Z) (iface : Z)
| RxHeartbeat (source role0 uptime devices : Z)
| RxNotHandled (type0 source : Z)
| Elect (e : log_event).

(** [my_id] of [edtsp_pc.c] next to the variables of the election module. *)
Record state : Type := {
  my_id : Z;
  election : Election.state
}.

Definition with_election (e : Election.state) (st : state) : state :=
  {| my_id := my_id st; election := e |}.

(** [main] up to the loop, for the device identifier [id]. *)
Definition startup (id : Z) : state :=
  {| my_id := id; election := edtsp_election_init id |}.

(** The received buffer seen through the packed structures on a
    little-endian host: a [uint16_t] or [uint32_t] field is read low byte
    first.  The buffer has 512 bytes in the code; a shorter list stands for
    a buffer that is zero from its end on. *)
Definition byte_at (buffer : list Z) (off : nat) : Z :=
  default 0 (buffer !! off).

Definition load16 (buffer : list Z) (off : nat) : Z :=
  byte_at buffer off + 2 ^ 8 * byte_at buffer (off + 1).

Definition load32 (buffer : list Z) (off : nat) : Z :=
  byte_at buffer off + 2 ^ 8 * byte_at buffer (off + 1)
  + 2 ^ 16 * byte_at buffer (off + 2) + 2 ^ 24 * byte_at buffer (off + 3).

Definition header_at (buffer : list Z) : EDTSPHeader :=
  {| magic := load16 buffer 0;
     type := byte_at buffer 2;
     source_id := load32 buffer 3;
     payload_len := byte_at buffer 7 |}.

Definition discovery_at (buffer : list Z) : Discovery.EDTSPDiscoveryPacket :=
  {| Discovery.header := header_at buffer;
     Discovery.interface_type := byte_at buffer 8;
     Discovery.version := byte_at buffer 9;
     Discovery.device_name :=
       take Discovery.sizeof_device_name (drop 10 buffer) |}.

Definition heartbeat_at (buffer : list Z) : Heartbeat.EDTSPHeartbeatPacket :=
  {| Heartbeat.header := header_at buffer;
     Heartbeat.role := byte_at buffer 8;
     Heartbeat.uptime_ms := load32 buffer 9;
     Heartbeat.active_devices := byte_at buffer 13 |}.

Definition lift (r : Election.state * list log_event) (st : state)
    : state * list event :=
  (with_election r.1 st, Elect <$> r.2).

(** [now] is the value [get_time_ms] returns inside the handler.  The name
    in [RxDiscovery] is the string the 32-byte field holds up to its first
    NUL; for a field without a NUL, where [%s] reads on past the field, the
    event shows the 32 bytes only. *)
Definition handle_discovery (pkt : Discovery.EDTSPDiscoveryPacket) (now : Z)
    (st : state) : state * list event :=
  let src := source_id (Discovery.header pkt) in
  let '(e1, lg1) :=
    edtsp_update_device src now EDTSP_ROLE_UNKNOWN (election st) in
  let '(e2, lg2) := edtsp_perform_election e1 in
  (with_election e2 st,
   RxDiscovery src (c_string (Discovery.device_name pkt))
     (Discovery.interface_type pkt)
   :: (Elect <$> lg1) ++ (Elect <$> lg2)).

Definition handle_heartbeat (pkt : Heartbeat.EDTSPHeartbeatPacket) (now : Z)
    (st : state) : state * list event :=
  match Heartbeat.edtsp_parse_heartbeat (Some pkt) with
  | None => (st, [])
  | Some p =>
      let src := source_id (Heartbeat.header p) in
      let '(e1, lg1) :=
        edtsp_update_device src now (Heartbeat.role p) (election st) in
      let '(e2, lg2) := edtsp_perform_election e1 in
      (with_election e2 st,
       RxHeartbeat src (Heartbeat.role p) (Heartbeat.uptime_ms p)
         (Heartbeat.active_devices p)
       :: (Elect <$> lg1) ++ (Elect <$> lg2))
  end.

(** [buffer] is the receive buffer after [recvfrom] and [bytes] the value
    [recvfrom] returned.  [bytes] is an [ssize_t] compared with [size_t]
    sizes, so it is converted to 64-bit unsigned in each comparison. *)
Definition receive_packets (buffer : list Z) (bytes now : Z) (st : state)
    : state * list event :=
  if u64 bytes <? sizeof_EDTSPHeader then (st, [])
  else
    match edtsp_parse_header (Some (header_at buffer)) with
    | (true, Some header_copy) =>
        if source_id header_copy =? my_id st then (st, [])
        else if type header_copy =? EDTSP_TYPE_DISCOVERY then
          if Discovery.sizeof_EDTSPDiscoveryPacket <=? u64 bytes then
            let p := discovery_at buffer in
            handle_discovery
              {| Discovery.header := header_copy;
                 Discovery.interface_type := Discovery.interface_type p;
                 Discovery.version := Discovery.version p;
                 Discovery.device_name := Discovery.device_name p |}
              now st
          else (st, [])
        else if type header_copy =? EDTSP_TYPE_HEARTBEAT then
          if Heartbeat.sizeof_EDTSPHeartbeatPacket <=? u64 bytes then
            let p := heartbeat_at buffer in
            handle_heartbeat
              {| Heartbeat.header := header_copy;
                 Heartbeat.role := Heartbeat.role p;
                 Heartbeat.uptime_ms := Heartbeat.uptime_ms p;
                 Heartbeat.active_devices := Heartbeat.active_devices p |}
              now st
          else (st, [])
        else (st, [RxNotHandled (type header_copy) (source_id header_copy)])
    | _ => (st, [])
    end.

(** [send_packet (&pkt, sizeof (pkt))] transmits the memory of the packed
    structure: on the same little-endian host a [uint16_t] or [uint32_t]
    field lies low byte first. *)
Definition store16 (v : Z) : list Z := [v mod 2 ^ 8; v / 2 ^ 8 mod 2 ^ 8].

Definition store32 (v : Z) : list Z :=
  [v mod 2 ^ 8; v / 2 ^ 8 mod 2 ^ 8; v / 2 ^ 16 mod 2 ^ 8;
   v / 2 ^ 24 mod 2 ^ 8].

Definition header_bytes (h : EDTSPHeader) : list Z :=
  store16 (magic h) ++ [type h] ++ store32 (source_id h) ++ [payload_len h].

Definition heartbeat_bytes (p : Heartbeat.EDTSPHeartbeatPacket) : list Z :=
  header_bytes (Heartbeat.header p) ++ [Heartbeat.role p]
  ++ store32 (Heartbeat.uptime_ms p) ++ [Heartbeat.active_devices p].

(** [send_heartbeat]: the datagram handed to [sendto].  [pkt] is the
    uninitialised local the builder fills and [uptime] the value of
    [(uint32_t)(get_time_ms() - start_time_ms)]. *)
Definition send_heartbeat (pkt : Heartbeat.EDTSPHeartbeatPacket) (uptime : Z)
    (st : state) : list Z :=
  match Heartbeat.edtsp_build_heartbeat (Some pkt) (my_id st)
          (edtsp_get_my_role (election st)) uptime
          (edtsp_get_active_device_count (election st)) with
  | Some p => heartbeat_bytes p
  | None => []
  end.

Definition discovery_bytes (p : Discovery.EDTSPDiscoveryPacket) : list Z :=
  header_bytes (Discovery.header p) ++ [Discovery.interface_type p]
  ++ [Discovery.version p] ++ Discovery.device_name p.

(** [send_discovery]: the datagram handed to [sendto].  [pkt] is the
    uninitialised local the builder fills and [hostname] the string
    [gethostname] left in its buffer. *)
Definition send_discovery (pkt : Discovery.EDTSPDiscoveryPacket)
    (hostname : list Z) (st : state) : list Z :=
  match Discovery.edtsp_build_discovery (Some pkt) (my_id st) EDTSP_IFACE_ETH
          (Some hostname) with
  | Some p => discovery_bytes p
  | None => []
  end.

(** The timeout check of the main loop. *)
Definition check_timeouts (now : Z) (st : state) : state * list event :=
  lift (edtsp_check_timeouts now (election st)) st.

End Pc.

(** ** persistent_id.c

    The file system and the random sources are inputs.  [id_file] is what
    [fopen (ID_FILE_PATH, "rb")] finds: [None] when the file cannot be
    opened, else its bytes; [writable] tells whether
    [fopen (ID_FILE_PATH, "wb")] succeeds.  [urandom] is [None] when
    [/dev/urandom] cannot be opened, else the [uint32_t] its [fread] left
    in [id]; [rand1] and [rand2] are the two results of [rand ()]. *)

Module PersistentId.

Record world : Type := {
  id_file : option (list Z);
  writable : bool
}.

Record entropy : Type := {
  urandom : option Z;
  rand1 : Z;
  rand2 : Z
}.

(** What the module prints. *)
Inductive id_event : Type :=
| IdLoaded (id : Z)
| IdGenerated (id : Z)
| IdSaved
| IdNotSaved.

Definition generate_random_id (e : entropy) : Z :=
  let id :=
    match urandom e with
    | Some v => v
    | None => u32 (u32 (rand1 e) * u32 (rand2 e))
    end in
  if id =? 0 then 1 else id.

(** [fread (&device_id, sizeof (device_id), 1, fp)] returns 1 when the file
    has four bytes; the host reads them low byte first.  A saved file holds
    the four bytes of the identifier. *)
Definition edtsp_get_device_id (w : world) (e : entropy)
    : Z * world * list id_event :=
  let generate :=
    let device_id := generate_random_id e in
    if writable w
    then (device_id,
          {| id_file := Some (Pc.store32 device_id); writable := writable w |},
          [IdGenerated device_id; IdSaved])
    else (device_id, w, [IdGenerated device_id; IdNotSaved]) in
  match id_file w with
  | Some bytes =>
      let read := if (4 <=? length bytes)%nat then 1 else 0 in
      let device_id := Pc.load32 bytes 0 in
      if (read =? 1) && negb (device_id =? 0)
      then (device_id, w, [IdLoaded device_id])
      else generate
  | None => generate
  end.

End PersistentId.

(** * Vocabulary of the statements

    What the properties below are stated with: host-order values to compare
    decoded packets with, the set of active identifiers and its maximum,
    and registries and processes built by running the code on a list of
    observations. *)

(** A header in host byte order. *)
Definition host_header (kind sid plen : Z) : EDTSPHeader :=
  {| magic := EDTSP_MAGIC; type := kind; source_id := sid;
     payload_len := plen |}.

(** The header [edtsp_parse_header] leaves behind when it accepts. *)
Definition parsed_header (h : EDTSPHeader) : option EDTSPHeader :=
  match edtsp_parse_header (Some h) with
  | (true, h1) => h1
  | (false, _) => None
  end.

(** The largest values a packet takes: a device name of 31 characters and
    64 data bytes. *)
Definition name31 : list Z := replicate 31 65.
Definition bytes64 : list Z := Z.of_nat <$> seq 1 64.

(** A packet buffer with the contents of an earlier use. *)
Definition stale_packet : Data.EDTSPDataPacket :=
  {| Data.header := zero_header; Data.sensor_id := 9;
     Data.timestamp_ms := 9; Data.data_len := 9; Data.data := bytes64 |}.

(** The packet a successful call with one data byte leaves in the buffer. *)
Definition built_packet : Data.EDTSPDataPacket :=
  default stale_packet
    (Data.edtsp_build_data (Some stale_packet) 7 3 1000 (Some [42]) 1).

(** [m] is the maximum of the finite set [X]. *)
Definition is_max (m : Z) (X : gset Z) : Prop :=
  m ∈ X /\ forall x, x ∈ X -> x <= m.

(** The set S of the identifiers the registry holds as active. *)
Definition active_set (st : Election.state) : gset Z :=
  list_to_set (Election.active_ids st).

(** The identifier that wins over the registry of [st]: the maximum of the
    own identifier and the active ones. *)
Definition winner (st : Election.state) : Z :=
  foldr Z.max (Election.my_device_id st) (Election.active_ids st).

(** The role an election over the registry of [st] comes to: Master when
    the own identifier is the winner, Slave otherwise. *)
Definition computed_role (st : Election.state) : Z :=
  if winner st =? Election.my_device_id st then EDTSP_ROLE_MASTER
  else EDTSP_ROLE_SLAVE.

(** The registry of an election state after a sweep at [now]. *)
Definition swept_state (now : Z) (e : Election.state) : Election.state :=
  Election.with_devices
    ((Election.sweep now (Election.tracked e)).1.1
     ++ drop (Z.to_nat (Election.device_count e)) (Election.device_list e))
    (Election.device_count e) e.

(** What a sweep at [now] does to one tracked record. *)
Definition expire (now : Z) (d : Election.EDTSPDeviceInfo)
    : Election.EDTSPDeviceInfo :=
  if Election.active d
     && (EDTSP_HEARTBEAT_TIMEOUT_MS <? u64 (now - Election.last_heartbeat_ms d))
  then Election.set_inactive d
  else d.

(** The name field [send_discovery] transmits for a host name. *)
Definition sent_name (hostname : list Z) : list Z :=
  strncpy (replicate 32 0) hostname 31.

(** [k] is the first slot of [l] that holds [id]. *)
Definition first_slot (l : list Election.EDTSPDeviceInfo) (id : Z) (k : nat)
    : Prop :=
  (exists d, l !! k = Some d /\ Election.device_id d = id)
  /\ forall (j : nat) d', (j < k)%nat -> l !! j = Some d' ->
       Election.device_id d' <> id.

(** ** Scenarios

    [observe_all ids now r st] is [st] after one [edtsp_update_device] per
    identifier of [ids]; [hear_all ids now st] is the process [st] after
    one heartbeat per identifier of [ids] went through its handler. *)

Definition observe_all (ids : list Z) (now role0 : Z) (st : Election.state)
    : Election.state :=
  foldl (fun s id => (Election.edtsp_update_device id now role0 s).1) st ids.

(** Self is 1000 and has heard from the devices 1..255. *)
Definition busy : Election.state :=
  observe_all (seqZ 1 255) 0 EDTSP_ROLE_SLAVE
    (Election.edtsp_election_init 1000).

(** Self is 100; 50 and 200 were heard at 0 and the sweep at 6000 has
    timed both out. *)
Definition lapsed : Election.state :=
  (Election.edtsp_check_timeouts 6000
     (observe_all [50; 200] 0 EDTSP_ROLE_SLAVE
        (Election.edtsp_election_init 100))).1.

(** Self is 1000 and has heard from 256 devices, 1..256. *)
Definition crowded : Election.state :=
  observe_all (seqZ 1 256) 0 EDTSP_ROLE_SLAVE
    (Election.edtsp_election_init 1000).

(** A heartbeat as [receive_packets] hands it to the handler: the header
    already in host order. *)
Definition heartbeat_from (id role0 : Z) : Heartbeat.EDTSPHeartbeatPacket :=
  {| Heartbeat.header := host_header EDTSP_TYPE_HEARTBEAT id 6;
     Heartbeat.role := role0;
     Heartbeat.uptime_ms := 0;
     Heartbeat.active_devices := 1 |}.

Definition hear_all (ids : list Z) (now : Z) (st : Pc.state) : Pc.state :=
  foldl (fun s id =>
           (Pc.handle_heartbeat (heartbeat_from id EDTSP_ROLE_SLAVE) now s).1)
    st ids.

(** The process of device 1000 after heartbeats from 256 devices. *)
Definition crowded_pc : Pc.state := hear_all (seqZ 1 256) 0 (Pc.startup 1000).

(** The datagram of a Slave heartbeat from device 2000 (0x000007D0). *)
Definition heartbeat_2000 : list Z :=
  [0xED; 0x61; 2; 0x00; 0x00; 0x07; 0xD0; 6; 1; 0; 0; 0; 0; 1].

(** Self is 100; 50 and 200 were heard at 0 and 50 again at 3000.  The
    sweep at 4000 finds every device in time; the sweep at 6000 drops 200
    and the election makes self Master. *)
Definition watching : Pc.state :=
  hear_all [50] 3000 (hear_all [50; 200] 0 (Pc.startup 100)).

(** Devices 100 and 200, each having heard the other and device 50. *)
Definition node_100 : Election.state :=
  observe_all [50; 200] 0 EDTSP_ROLE_UNKNOWN (Election.edtsp_election_init 100).
Definition node_200 : Election.state :=
  observe_all [100; 50] 0 EDTSP_ROLE_UNKNOWN (Election.edtsp_election_init 200).

(** * Properties *)

(** ** Bits of the byte swaps *)

Section Bits.

Lemma testbit_shl a n i :
  Z.testbit (Z.shiftl a n) i = (0 <=? i) && Z.testbit a (i - n).
Proof.
  destruct (Z.leb_spec 0 i); simpl.
  - now apply Z.shiftl_spec.
  - now apply Z.testbit_neg_r.
Qed.

Lemma testbit_shr a n i :
  Z.testbit (Z.shiftr a n) i = (0 <=? i) && Z.testbit a (i + n).
Proof.
  destruct (Z.leb_spec 0 i); simpl.
  - now apply Z.shiftr_spec.
  - now apply Z.testbit_neg_r.
Qed.

Lemma testbit_mask k s i :
  0 <= k -> 0 <= s ->
  Z.testbit (Z.shiftl (Z.ones k) s) i = (s <=? i) && (i <? s + k).
Proof.
  intros Hk Hs. rewrite testbit_shl.
  destruct (Z.leb_spec 0 i), (Z.leb_spec s i), (Z.ltb_spec i (s + k));
    simpl; try lia;
    first [ apply Z.ones_spec_low; lia | apply Z.ones_spec_high; lia
          | apply Z.testbit_neg_r; lia | reflexivity ].
Qed.

Lemma testbit_mod2 a k i :
  0 <= k -> Z.testbit (a mod 2 ^ k) i = (i <? k) && Z.testbit a i.
Proof.
  intros Hk. destruct (Z.ltb_spec i k); simpl.
  - now apply Z.mod_pow2_bits_low.
  - now apply Z.mod_pow2_bits_high.
Qed.

Lemma testbit_high x k i : 0 <= x < 2 ^ k -> k <= i -> Z.testbit x i = false.
Proof.
  intros Hx Hi. destruct (Z.eq_dec x 0) as [->|Hnz]; [apply Z.bits_0|].
  assert (0 <= k).
  { destruct (Z.le_gt_cases 0 k); [lia|]. rewrite Z.pow_neg_r in Hx; lia. }
  apply Z.bits_above_log2; [lia|].
  apply Z.lt_le_trans with k; [|lia]. apply Z.log2_lt_pow2; lia.
Qed.

End Bits.

(** Settle every comparison of the goal that [lia] decides. *)
Ltac decide_cmp :=
  repeat match goal with
  | |- context [?a <? ?b] =>
      first [ rewrite (proj2 (Z.ltb_lt a b)) by lia
            | rewrite (proj2 (Z.ltb_ge a b)) by lia ]
  | |- context [?a <=? ?b] =>
      first [ rewrite (proj2 (Z.leb_le a b)) by lia
            | rewrite (proj2 (Z.leb_gt a b)) by lia ]
  end.

(** Split on the byte of a 32-bit word that bit [i] falls in. *)
Ltac byte_cases i :=
  destruct (Z.lt_ge_cases i 8);
  [|destruct (Z.lt_ge_cases i 16);
    [|destruct (Z.lt_ge_cases i 24); [|destruct (Z.lt_ge_cases i 32)]]].

Lemma swap16_bits x i :
  is_u16 x -> 0 <= i ->
  Z.testbit (edtsp_swap16 x) i =
    if i <? 8 then Z.testbit x (i + 8)
    else if i <? 16 then Z.testbit x (i - 8) else false.
Proof.
  intros Hx Hi. unfold edtsp_swap16, u16.
  rewrite testbit_mod2, Z.lor_spec, testbit_shr, testbit_shl by lia.
  destruct (Z.lt_ge_cases i 8); [|destruct (Z.lt_ge_cases i 16)];
    decide_cmp; simpl.
  - rewrite (Z.testbit_neg_r x (i - 8)) by lia. now rewrite orb_false_r.
  - now rewrite (testbit_high x 16 (i + 8)) by (auto; lia).
  - reflexivity.
Qed.

Lemma swap16_range x : is_u16 (edtsp_swap16 x).
Proof. unfold edtsp_swap16, u16, is_u16. apply Z.mod_pos_bound. lia. Qed.

Lemma swap16_invol x : is_u16 x -> edtsp_swap16 (edtsp_swap16 x) = x.
Proof.
  intros Hx. apply Z.bits_inj'. intros i Hi.
  rewrite swap16_bits by (auto using swap16_range).
  destruct (Z.lt_ge_cases i 8); [|destruct (Z.lt_ge_cases i 16)]; decide_cmp.
  - rewrite swap16_bits by (auto; lia). decide_cmp. f_equal. lia.
  - rewrite swap16_bits by (auto; lia). decide_cmp. f_equal. lia.
  - symmetry. eapply testbit_high; eauto.
Qed.

Lemma swap32_bits x i :
  0 <= i ->
  Z.testbit (edtsp_swap32 x) i =
    if i <? 8 then Z.testbit x (i + 24)
    else if i <? 16 then Z.testbit x (i + 8)
    else if i <? 24 then Z.testbit x (i - 8)
    else if i <? 32 then Z.testbit x (i - 24) else false.
Proof.
  intros Hi. unfold edtsp_swap32, u32.
  change 0xFF with (Z.shiftl (Z.ones 8) 0).
  change 0xFF00 with (Z.shiftl (Z.ones 8) 8).
  change 0xFF0000 with (Z.shiftl (Z.ones 8) 16).
  change 0xFF000000 with (Z.shiftl (Z.ones 8) 24).
  rewrite !Z.lor_spec, !Z.land_spec, !testbit_mask, !testbit_mod2,
          !testbit_shr, !testbit_shl by lia.
  byte_cases i; decide_cmp; simpl;
    rewrite ?andb_false_r, ?orb_false_r, ?andb_true_r; reflexivity.
Qed.

Lemma swap32_invol x : is_u32 x -> edtsp_swap32 (edtsp_swap32 x) = x.
Proof.
  intros Hx. apply Z.bits_inj'. intros i Hi.
  rewrite swap32_bits by lia.
  byte_cases i; decide_cmp;
    try (rewrite swap32_bits by lia; decide_cmp; f_equal; lia).
  symmetry. eapply testbit_high; eauto.
Qed.

Lemma ntohs_htons x : is_u16 x -> EDTSP_NTOHS (EDTSP_HTONS x) = x.
Proof. apply swap16_invol. Qed.

Lemma ntohl_htonl x : is_u32 x -> EDTSP_NTOHL (EDTSP_HTONL x) = x.
Proof. apply swap32_invol. Qed.

(** ** C strings *)

Lemma c_string_app_nul s t :
  Forall (fun c => c <> 0) s -> c_string (s ++ 0 :: t) = s.
Proof.
  induction 1 as [|c s Hc _ IH]; simpl; [reflexivity|].
  destruct (Z.eqb_spec c 0); [contradiction|]. now rewrite IH.
Qed.

Lemma c_string_id s : Forall (fun c => c <> 0) s -> c_string s = s.
Proof.
  induction 1 as [|c s Hc _ IH]; simpl; [reflexivity|].
  destruct (Z.eqb_spec c 0); [contradiction|]. now rewrite IH.
Qed.

Lemma strncpy_fits (dest s : list Z) (n : nat) :
  Forall (fun c => c <> 0) s -> (length s <= n)%nat ->
  strncpy dest s n = s ++ replicate (n - length s) 0 ++ drop n dest.
Proof.
  intros Hs Hn. unfold strncpy.
  rewrite c_string_id by assumption. now rewrite take_ge by lia.
Qed.

(** ** Round trip of the codec *)

Lemma parse_init_header h kind sid plen :
  is_u32 sid -> 1 <= kind <= 5 ->
  edtsp_parse_header (edtsp_init_header (Some h) kind sid plen)
  = (true, Some (host_header kind sid plen)).
Proof.
  intros Hsid Hkind. unfold edtsp_parse_header, edtsp_init_header; simpl.
  rewrite ntohl_htonl by assumption.
  rewrite ntohs_htons by (unfold is_u16, EDTSP_MAGIC; lia).
  unfold host_header, EDTSP_MAGIC, EDTSP_TYPE_DISCOVERY, EDTSP_TYPE_DATA.
  decide_cmp. reflexivity.
Qed.

Lemma parse_built_header h kind sid plen :
  is_u32 sid -> 1 <= kind <= 5 ->
  edtsp_parse_header (Some (init_header_in h kind sid plen))
  = (true, Some (host_header kind sid plen)).
Proof. intros Hsid Hkind. now apply (parse_init_header h). Qed.

Lemma parsed_init_header h kind sid plen :
  is_u32 sid -> 1 <= kind <= 5 ->
  parsed_header (init_header_in h kind sid plen)
  = Some (host_header kind sid plen).
Proof.
  intros Hsid Hkind. unfold parsed_header, init_header_in.
  change (default h (edtsp_init_header (Some h) kind sid plen))
    with {| magic := EDTSP_HTONS EDTSP_MAGIC; type := kind;
            source_id := EDTSP_HTONL sid; payload_len := plen |}.
  pose proof (parse_init_header h kind sid plen Hsid Hkind) as E.
  change (edtsp_init_header (Some h) kind sid plen)
    with (Some {| magic := EDTSP_HTONS EDTSP_MAGIC; type := kind;
                  source_id := EDTSP_HTONL sid; payload_len := plen |}) in E.
  now rewrite E.
Qed.

(** Side conditions on the identifier and the packet kind. *)
Ltac kind_side :=
  first [ assumption
        | cbv [EDTSP_TYPE_DISCOVERY EDTSP_TYPE_HEARTBEAT EDTSP_TYPE_HANDSHAKE
               EDTSP_TYPE_CONFIG EDTSP_TYPE_DATA]; lia ].

Lemma build_data_fits p0 sid sensor stamp bytes len :
  0 <= len <= 64 ->
  Data.edtsp_build_data (Some p0) sid sensor stamp (Some bytes) len
  = Some {| Data.header :=
              init_header_in zero_header EDTSP_TYPE_DATA sid 70;
            Data.sensor_id := sensor;
            Data.timestamp_ms := EDTSP_HTONL stamp;
            Data.data_len := len;
            Data.data :=
              memcpy (replicate Data.sizeof_data 0) bytes (Z.to_nat len) |}.
Proof. intros Hlen. unfold Data.edtsp_build_data. decide_cmp. reflexivity. Qed.

(** C4.  Decoding an encoded packet gives back the values that were
    encoded, for the header with any kind in 1..5 and any payload length,
    and for each of the five packets: the parsed header is the host-order
    header, every multi-byte field is back in host order, the device name
    (at most 31 characters) is read back from its NUL-padded field and the
    first [data_len <= 64] data bytes are followed by zeros. *)
Theorem codec_roundtrip
    (h0 : EDTSPHeader) (kind sid plen : Z)
    (d0 : Discovery.EDTSPDiscoveryPacket) (iface : Z) (name : list Z)
    (b0 : Heartbeat.EDTSPHeartbeatPacket) (role0 uptime devices : Z)
    (k0 : Handshake.EDTSPHandshakePacket) (step target caps : Z)
    (c0 : Config.EDTSPConfigPacket) (sensor rate enable0 : Z)
    (p0 : Data.EDTSPDataPacket) (stamp : Z) (bytes : list Z) (len : Z) :
  is_u32 sid -> 1 <= kind <= 5 ->
  Forall (fun c => c <> 0) name -> (length name <= 31)%nat ->
  is_u32 uptime -> is_u32 target -> is_u16 caps -> is_u16 rate ->
  is_u32 stamp -> 0 <= len <= 64 -> len <= Z.of_nat (length bytes) ->
  edtsp_parse_header (edtsp_init_header (Some h0) kind sid plen)
    = (true, Some (host_header kind sid plen))
  /\ (exists p,
        Discovery.edtsp_build_discovery (Some d0) sid iface (Some name)
          = Some p
        /\ parsed_header (Discovery.header p)
           = Some (host_header EDTSP_TYPE_DISCOVERY sid 34)
        /\ Discovery.interface_type p = iface
        /\ Discovery.version p = EDTSP_VERSION
        /\ length (Discovery.device_name p) = 32%nat
        /\ c_string (Discovery.device_name p) = name)
  /\ (exists p,
        Heartbeat.edtsp_build_heartbeat (Some b0) sid role0 uptime devices
          = Some p
        /\ parsed_header (Heartbeat.header p)
           = Some (host_header EDTSP_TYPE_HEARTBEAT sid 6)
        /\ Heartbeat.edtsp_parse_heartbeat (Some p)
           = Some {| Heartbeat.header := Heartbeat.header p;
                     Heartbeat.role := role0;
                     Heartbeat.uptime_ms := uptime;
                     Heartbeat.active_devices := devices |})
  /\ (exists p,
        Handshake.edtsp_build_handshake (Some k0) sid step target caps iface
          = Some p
        /\ parsed_header (Handshake.header p)
           = Some (host_header EDTSP_TYPE_HANDSHAKE sid 8)
        /\ Handshake.edtsp_parse_handshake (Some p)
           = Some {| Handshake.header := Handshake.header p;
                     Handshake.handshake_step := step;
                     Handshake.target_id := target;
                     Handshake.capabilities := caps;
                     Handshake.interface_type := iface |})
  /\ (exists p,
        Config.edtsp_build_config (Some c0) sid target sensor rate enable0
          = Some p
        /\ parsed_header (Config.header p)
           = Some (host_header EDTSP_TYPE_CONFIG sid 8)
        /\ Config.edtsp_parse_config (Some p)
           = Some {| Config.header := Config.header p;
                     Config.target_id := target;
                     Config.sensor_id := sensor;
                     Config.sampling_rate_ms := rate;
                     Config.enable := enable0 |})
  /\ (exists p,
        Data.edtsp_build_data (Some p0) sid sensor stamp (Some bytes) len
          = Some p
        /\ parsed_header (Data.header p)
           = Some (host_header EDTSP_TYPE_DATA sid 70)
        /\ Data.edtsp_parse_data (Some p)
           = Some {| Data.header := Data.header p;
                     Data.sensor_id := sensor;
                     Data.timestamp_ms := stamp;
                     Data.data_len := len;
                     Data.data :=
                       take (Z.to_nat len) bytes
                       ++ replicate (64 - Z.to_nat len) 0 |}
        /\ length (Data.data p) = 64%nat).
Proof.
  intros Hsid Hkind Hname Hlen Hup Htgt Hcaps Hrate Hstamp Hdl Hbytes.
  split; [now apply parse_init_header|].
  split; [|split; [|split; [|split]]]; eexists;
    (split; [first [reflexivity | now apply build_data_fits]|]).
  - simpl. split; [apply parsed_init_header; kind_side|].
    do 2 (split; [reflexivity|]).
    rewrite strncpy_fits by (auto; simpl; lia).
    split.
    + rewrite !length_app, length_replicate. simpl. lia.
    + destruct (31 - length name)%nat eqn:E; simpl.
      * now apply c_string_app_nul.
      * now apply c_string_app_nul.
  - simpl. split; [apply parsed_init_header; kind_side|].
    now rewrite ntohl_htonl.
  - simpl. split; [apply parsed_init_header; kind_side|].
    now rewrite ntohl_htonl, ntohs_htons.
  - simpl. split; [apply parsed_init_header; kind_side|].
    now rewrite ntohl_htonl, ntohs_htons.
  - unfold Data.edtsp_parse_data.
    cbn [Data.header Data.sensor_id Data.timestamp_ms Data.data_len Data.data].
    split; [apply parsed_init_header; kind_side|].
    rewrite ntohl_htonl by assumption.
    unfold memcpy, Data.sizeof_data. rewrite drop_replicate.
    split; [reflexivity|].
    rewrite length_app, length_take, length_replicate. lia.
Qed.

(** The round trip at the boundary values: a header announcing 255
    payload bytes, a device name of 31 characters, 64 data bytes. *)
Lemma codec_roundtrip_witness :
  edtsp_parse_header (edtsp_init_header (Some zero_header) 5 0xFFFFFFFF 255)
    = (true, Some (host_header 5 0xFFFFFFFF 255))
  /\ (exists p,
        Discovery.edtsp_build_discovery (Some Discovery.zero) 0xFFFFFFFF 1
          (Some name31) = Some p
        /\ parsed_header (Discovery.header p)
           = Some (host_header EDTSP_TYPE_DISCOVERY 0xFFFFFFFF 34)
        /\ Discovery.interface_type p = 1
        /\ Discovery.version p = EDTSP_VERSION
        /\ length (Discovery.device_name p) = 32%nat
        /\ c_string (Discovery.device_name p) = name31)
  /\ (exists p,
        Data.edtsp_build_data (Some stale_packet) 0xFFFFFFFF 15 0xFFFFFFFF
          (Some bytes64) 64 = Some p
        /\ parsed_header (Data.header p)
           = Some (host_header EDTSP_TYPE_DATA 0xFFFFFFFF 70)
        /\ Data.edtsp_parse_data (Some p)
           = Some {| Data.header := Data.header p;
                     Data.sensor_id := 15;
                     Data.timestamp_ms := 0xFFFFFFFF;
                     Data.data_len := 64;
                     Data.data := bytes64 |}).
Proof.
  pose proof (codec_roundtrip zero_header 5 0xFFFFFFFF 255
    Discovery.zero 1 name31
    {| Heartbeat.header := zero_header; Heartbeat.role := 0;
       Heartbeat.uptime_ms := 0; Heartbeat.active_devices := 0 |}
    2 0xFFFFFFFF 255
    {| Handshake.header := zero_header; Handshake.handshake_step := 0;
       Handshake.target_id := 0; Handshake.capabilities := 0;
       Handshake.interface_type := 0 |}
    3 0xFFFFFFFF 0xFFFF
    {| Config.header := zero_header; Config.target_id := 0;
       Config.sensor_id := 0; Config.sampling_rate_ms := 0;
       Config.enable := 0 |}
    15 0xFFFF 1
    stale_packet 0xFFFFFFFF bytes64 64) as H.
  destruct H as (H1 & H2 & _ & _ & _ & H6).
  - unfold is_u32. lia.
  - lia.
  - unfold name31. simpl. repeat constructor; lia.
  - simpl. lia.
  - unfold is_u32. lia.
  - unfold is_u32. lia.
  - unfold is_u16. lia.
  - unfold is_u16. lia.
  - unfold is_u32. lia.
  - lia.
  - simpl. lia.
  - split; [exact H1|]. split; [exact H2|].
    destruct H6 as (p & Hb & Hh & Hp & _). exists p.
    split; [exact Hb|]. split; [exact Hh|exact Hp].
Defined.

(** The remaining boundary values, evaluated: no data bytes, and 64. *)
Example data_roundtrip_empty :
  Data.edtsp_parse_data
    (Data.edtsp_build_data (Some {| Data.header := zero_header;
        Data.sensor_id := 9; Data.timestamp_ms := 9; Data.data_len := 9;
        Data.data := bytes64 |}) 7 3 1000 (Some []) 0)
  = Some {| Data.header :=
              {| magic := 0x61ED; type := 5; source_id := 0x07000000;
                 payload_len := 70 |};
            Data.sensor_id := 3; Data.timestamp_ms := 1000;
            Data.data_len := 0; Data.data := replicate 64 0 |}.
Proof. reflexivity. Qed.

Example data_roundtrip_full :
  Data.edtsp_parse_data
    (Data.edtsp_build_data (Some {| Data.header := zero_header;
        Data.sensor_id := 9; Data.timestamp_ms := 9; Data.data_len := 9;
        Data.data := [] |}) 7 3 1000 (Some bytes64) 64)
  = Some {| Data.header :=
              {| magic := 0x61ED; type := 5; source_id := 0x07000000;
                 payload_len := 70 |};
            Data.sensor_id := 3; Data.timestamp_ms := 1000;
            Data.data_len := 64; Data.data := bytes64 |}.
Proof. reflexivity. Qed.

(** ** Header rejection *)

Lemma parse_header_verdict h :
  (edtsp_parse_header (Some h)).1 = false <->
  (edtsp_swap16 (magic h) <> EDTSP_MAGIC \/ type h < 1 \/ 5 < type h).
Proof.
  unfold edtsp_parse_header, edtsp_header_valid, EDTSP_NTOHS,
    EDTSP_TYPE_DISCOVERY, EDTSP_TYPE_DATA; simpl.
  destruct (Z.eqb_spec (edtsp_swap16 (magic h)) EDTSP_MAGIC) as [E|E]; simpl.
  - destruct (Z.ltb_spec (type h) 1), (Z.ltb_spec 5 (type h)); simpl;
      split; intros; try lia; try discriminate; try reflexivity.
  - split; [now left|reflexivity].
Qed.

Lemma byte_at_take (buffer : list Z) (n off : nat) :
  (off < n)%nat -> Pc.byte_at (take n buffer) off = Pc.byte_at buffer off.
Proof. intros H. unfold Pc.byte_at. now rewrite lookup_take_lt. Qed.

Lemma header_at_take (buffer : list Z) :
  Pc.header_at (take 8 buffer) = Pc.header_at buffer.
Proof.
  unfold Pc.header_at, Pc.load16, Pc.load32.
  now rewrite !byte_at_take by (simpl; lia).
Qed.

(** A packet whose header is rejected is dropped before the dispatch. *)
Lemma receive_invalid_header (buffer : list Z) (bytes now : Z) (st : Pc.state) :
  (edtsp_parse_header (Some (Pc.header_at buffer))).1 = false ->
  Pc.receive_packets buffer bytes now st = (st, []).
Proof.
  intros Hv. unfold Pc.receive_packets.
  destruct (u64 bytes <? sizeof_EDTSPHeader); [reflexivity|].
  destruct (edtsp_parse_header (Some (Pc.header_at buffer))) as [[|] o];
    [discriminate|reflexivity].
Qed.

(** C5.  For every receive buffer, [edtsp_parse_header] on its header fails
    exactly when the byte-swapped magic is not 0xED61 or the kind byte is
    outside 1..5.  The verdict depends on the eight header bytes only, and
    after a failure [receive_packets] returns with the state as it was and
    nothing printed: no payload field is read. *)
Theorem header_rejection (buffer : list Z) :
  let verdict := (edtsp_parse_header (Some (Pc.header_at buffer))).1 in
  (verdict = false <->
     (edtsp_swap16 (magic (Pc.header_at buffer)) <> EDTSP_MAGIC
      \/ type (Pc.header_at buffer) < 1 \/ 5 < type (Pc.header_at buffer)))
  /\ (forall buffer' : list Z,
        take 8 buffer' = take 8 buffer ->
        edtsp_parse_header (Some (Pc.header_at buffer'))
        = edtsp_parse_header (Some (Pc.header_at buffer)))
  /\ (verdict = false ->
      forall bytes now st, Pc.receive_packets buffer bytes now st = (st, [])).
Proof.
  cbv zeta. split; [apply parse_header_verdict|]. split.
  - intros buffer' E.
    now rewrite <- (header_at_take buffer'), E, header_at_take.
  - intros Hv bytes now st. now apply receive_invalid_header.
Qed.

(** A heartbeat whose magic arrives low byte first is dropped. *)
Lemma header_rejection_witness :
  (edtsp_parse_header
     (Some (Pc.header_at [0x61; 0xED; 2; 0; 0; 7; 208; 6; 1; 0; 0; 0; 0; 1]))).1
  = false
  /\ Pc.receive_packets [0x61; 0xED; 2; 0; 0; 7; 208; 6; 1; 0; 0; 0; 0; 1]
       14 1 watching
     = (watching, []).
Proof.
  destruct (header_rejection [0x61; 0xED; 2; 0; 0; 7; 208; 6; 1; 0; 0; 0; 0; 1])
    as (Hiff & _ & Hdrop).
  assert (Hv : (edtsp_parse_header
                  (Some (Pc.header_at
                     [0x61; 0xED; 2; 0; 0; 7; 208; 6; 1; 0; 0; 0; 0; 1]))).1
               = false).
  { apply Hiff. left. vm_compute. discriminate. }
  split; [exact Hv|]. now apply Hdrop.
Defined.

(** ** The Data builder and its size bound *)

(** C9, as the code has it.  With [data_len > 64] the Data builder returns
    at once and the packet buffer is what it was, whatever the pointers;
    with [data_len <= 64] and both pointers valid it zero-fills the packet
    and writes the header and every field.  The function returns [void]
    and prints nothing, so the buffer is all a caller gets back. *)
Theorem build_data_bound (pkt : option Data.EDTSPDataPacket)
    (sid sensor stamp : Z) (data0 : option (list Z)) (len : Z) :
  (64 < len ->
     Data.edtsp_build_data pkt sid sensor stamp data0 len = pkt)
  /\ (len <= 64 ->
      forall p bytes, pkt = Some p -> data0 = Some bytes ->
        Data.edtsp_build_data pkt sid sensor stamp data0 len
        = Some {| Data.header :=
                    {| magic := EDTSP_HTONS EDTSP_MAGIC;
                       type := EDTSP_TYPE_DATA;
                       source_id := EDTSP_HTONL sid;
                       payload_len := 70 |};
                  Data.sensor_id := sensor;
                  Data.timestamp_ms := EDTSP_HTONL stamp;
                  Data.data_len := len;
                  Data.data :=
                    take (Z.to_nat len) bytes
                    ++ replicate (64 - Z.to_nat len) 0 |}).
Proof.
  split.
  - intros Hlen. unfold Data.edtsp_build_data.
    destruct pkt as [p|], data0 as [bytes|]; try reflexivity.
    decide_cmp. reflexivity.
  - intros Hlen p bytes -> ->. unfold Data.edtsp_build_data. decide_cmp.
    unfold memcpy, Data.sizeof_data. rewrite drop_replicate. reflexivity.
Qed.

Lemma build_data_bound_witness :
  Data.edtsp_build_data (Some stale_packet) 7 3 1000 (Some bytes64) 65
    = Some stale_packet
  /\ Data.data_len
       <$> Data.edtsp_build_data (Some stale_packet) 7 3 1000 (Some bytes64) 64
     = Some 64.
Proof.
  destruct (build_data_bound (Some stale_packet) 7 3 1000 (Some bytes64) 65)
    as [Hbig _].
  destruct (build_data_bound (Some stale_packet) 7 3 1000 (Some bytes64) 64)
    as [_ Hfit].
  split.
  - apply Hbig. lia.
  - rewrite (Hfit ltac:(lia) stale_packet bytes64 eq_refl eq_refl).
    reflexivity.
Defined.

(** C9 as stated fails: the rejection is not reported.  On a buffer that
    holds [built_packet], the call with [data_len = 200] is rejected and
    the call with [data_len = 1] succeeds, and the two give the caller the
    very same result. *)
Lemma build_data_rejection_unreported :
  Data.edtsp_build_data (Some built_packet) 7 3 1000 (Some [42]) 200
  = Data.edtsp_build_data (Some built_packet) 7 3 1000 (Some [42]) 1
  /\ Data.edtsp_build_data (Some built_packet) 7 3 1000 (Some [42]) 200
     = Some built_packet.
Proof. split; reflexivity. Qed.

(** ** The election *)

Section ElectionFacts.

Import Election.

Lemma foldr_max_shift (l : list Z) (h a : Z) :
  foldr Z.max (Z.max h a) l = Z.max a (foldr Z.max h l).
Proof. induction l as [|x l IH]; simpl; [lia|]. rewrite IH. lia. Qed.

Lemma fold_raise_highest (l : list EDTSPDeviceInfo) (h : Z) :
  fold_left raise_highest l h
  = foldr Z.max h (device_id <$> filter (fun d => active d = true) l).
Proof.
  revert h. induction l as [|d l IH]; intros h; simpl; [reflexivity|].
  rewrite IH. unfold raise_highest. rewrite filter_cons.
  destruct (active d) eqn:Ea; simpl.
  - destruct (Z.ltb_spec h (device_id d)).
    + replace (device_id d) with (Z.max h (device_id d)) at 1 by lia.
      apply foldr_max_shift.
    + replace h with (Z.max h (device_id d)) at 1 by lia.
      apply foldr_max_shift.
  - reflexivity.
Qed.

(** The scan of the election computes the maximum of the own identifier
    and the active identifiers. *)
Lemma highest_active_max st :
  highest_active st = foldr Z.max (my_device_id st) (active_ids st).
Proof. apply fold_raise_highest. Qed.

Lemma foldr_max_ge (l : list Z) (s : Z) :
  s <= foldr Z.max s l /\ (forall x, x ∈ l -> x <= foldr Z.max s l).
Proof.
  induction l as [|y l [IH1 IH2]]; simpl.
  - split; [lia|]. intros x Hx. inversion Hx.
  - split; [lia|]. intros x Hx. apply elem_of_cons in Hx as [->|Hx]; [lia|].
    specialize (IH2 x Hx). lia.
Qed.

Lemma foldr_max_in (l : list Z) (s : Z) :
  foldr Z.max s l = s \/ foldr Z.max s l ∈ l.
Proof.
  induction l as [|y l IH]; simpl; [now left|].
  destruct (Z.max_spec y (foldr Z.max s l)) as [[_ ->]|[_ ->]].
  - destruct IH as [->|IH]; [now left|]. right. now apply list_elem_of_further.
  - right. apply list_elem_of_here.
Qed.

End ElectionFacts.

Section ElectionRole.

Import Election.

Lemma is_max_unique (a b : Z) (X : gset Z) : is_max a X -> is_max b X -> a = b.
Proof.
  intros [Ha1 Ha2] [Hb1 Hb2]. specialize (Ha2 b Hb1). specialize (Hb2 a Ha1).
  lia.
Qed.

Lemma highest_active_is_max st :
  is_max (highest_active st) (active_set st ∪ {[my_device_id st]}).
Proof.
  rewrite highest_active_max. unfold is_max, active_set.
  destruct (foldr_max_ge (active_ids st) (my_device_id st)) as [Hs Hall].
  split.
  - destruct (foldr_max_in (active_ids st) (my_device_id st)) as [->|Hin].
    + now apply elem_of_union_r, elem_of_singleton.
    + apply elem_of_union_l. now apply elem_of_list_to_set.
  - intros x [Hx|Hx]%elem_of_union.
    + apply Hall. now apply elem_of_list_to_set in Hx.
    + apply elem_of_singleton in Hx as ->. exact Hs.
Qed.

Lemma elected_role st :
  my_role (edtsp_perform_election st).1
  = if highest_active st =? my_device_id st then EDTSP_ROLE_MASTER
    else EDTSP_ROLE_SLAVE.
Proof. reflexivity. Qed.

Lemma master_iff_highest st :
  my_role (edtsp_perform_election st).1 = EDTSP_ROLE_MASTER
  <-> highest_active st = my_device_id st.
Proof.
  rewrite elected_role.
  destruct (Z.eqb_spec (highest_active st) (my_device_id st));
    split; intros; try reflexivity; try assumption; try discriminate.
  contradiction.
Qed.

Lemma election_role_is_max st :
  my_role (edtsp_perform_election st).1 = EDTSP_ROLE_MASTER
  <-> is_max (my_device_id st) (active_set st ∪ {[my_device_id st]}).
Proof.
  pose proof (highest_active_is_max st) as Hmax.
  rewrite master_iff_highest. split.
  - intros E. rewrite E in Hmax. exact Hmax.
  - intros Hs. eapply is_max_unique; eassumption.
Qed.

End ElectionRole.

(** C1.  After the election the role is Master exactly when the own
    identifier [s] is the maximum of S ∪ {s}, where S is the set of active
    identifiers of the registry, and Slave otherwise; with S empty the role
    is Master.  The identifier the scan ends with is that maximum. *)
Theorem election_master_iff_max (st : Election.state) :
  let s := Election.my_device_id st in
  let S := active_set st in
  let st' := (Election.edtsp_perform_election st).1 in
  (Election.my_role st' = EDTSP_ROLE_MASTER <-> is_max s (S ∪ {[s]}))
  /\ (~ is_max s (S ∪ {[s]}) -> Election.my_role st' = EDTSP_ROLE_SLAVE)
  /\ (S = ∅ -> Election.my_role st' = EDTSP_ROLE_MASTER)
  /\ is_max (Election.highest_active st) (S ∪ {[s]})
  /\ Election.highest_active st = foldr Z.max s (Election.active_ids st).
Proof.
  cbv zeta. pose proof (highest_active_is_max st) as Hmax.
  pose proof (election_role_is_max st) as Hiff.
  split; [exact Hiff|]. split; [|split; [|split]].
  - intros Hn. rewrite elected_role.
    destruct (Z.eqb_spec (Election.highest_active st)
                (Election.my_device_id st)) as [E|E]; [|reflexivity].
    exfalso. apply Hn. rewrite E in Hmax. exact Hmax.
  - intros Hempty. apply Hiff. rewrite Hempty. split.
    + now apply elem_of_union_r, elem_of_singleton.
    + intros x [Hx|Hx]%elem_of_union.
      * now apply not_elem_of_empty in Hx.
      * apply elem_of_singleton in Hx. lia.
  - exact Hmax.
  - apply highest_active_max.
Qed.

(** The election on a registry with no active peer, and with a larger and
    a smaller active peer. *)
Example election_alone :
  Election.my_role
    (Election.edtsp_perform_election (Election.edtsp_election_init 100)).1
  = EDTSP_ROLE_MASTER.
Proof. reflexivity. Qed.

Lemma election_master_iff_max_witness :
  active_set (Pc.election watching) = {[50; 200]}
  /\ Election.my_role
       (Election.edtsp_perform_election (Pc.election watching)).1
     = EDTSP_ROLE_SLAVE
  /\ Election.my_role
       (Election.edtsp_perform_election (Election.edtsp_election_init 100)).1
     = EDTSP_ROLE_MASTER.
Proof.
  destruct (election_master_iff_max (Pc.election watching))
    as (_ & Hslave & _).
  destruct (election_master_iff_max (Election.edtsp_election_init 100))
    as (_ & _ & Hmaster & _).
  split; [|split].
  - unfold active_set.
    replace (Election.active_ids (Pc.election watching)) with [50; 200]
      by (vm_compute; reflexivity).
    simpl. now rewrite union_empty_r_L.
  - apply Hslave. intros [_ Hall].
    assert (H200 : 200 <= Election.my_device_id (Pc.election watching)).
    { apply Hall. apply elem_of_union_l, elem_of_list_to_set.
      replace (Election.active_ids (Pc.election watching)) with [50; 200]
        by (vm_compute; reflexivity).
      apply list_elem_of_further, list_elem_of_here. }
    vm_compute in H200. now apply H200.
  - apply Hmaster. reflexivity.
Defined.

(** C6.  The election computes the role from the registry, Master when
    the own identifier is the maximum of the own and the active
    identifiers and Slave otherwise, and stores it.  It prints a role
    change exactly when that role differs from the role held before, once,
    naming the old and the new role; when the two are equal it prints
    nothing and the state is what it was.  A second election on the state
    the first one left prints nothing. *)
Theorem election_reports_transition (st : Election.state) :
  let st' := (Election.edtsp_perform_election st).1 in
  let printed := (Election.edtsp_perform_election st).2 in
  Election.my_role st' = computed_role st
  /\ (computed_role st = EDTSP_ROLE_MASTER
      <-> is_max (Election.my_device_id st)
            (active_set st ∪ {[Election.my_device_id st]}))
  /\ (computed_role st <> Election.my_role st ->
      printed = [Election.LogRoleChange (Election.my_role st)
                   (computed_role st) (Election.my_device_id st)
                   (winner st)])
  /\ (computed_role st = Election.my_role st ->
      printed = [] /\ st' = st)
  /\ Election.edtsp_perform_election st' = (st', [])
  /\ Election.device_list st' = Election.device_list st
  /\ Election.device_count st' = Election.device_count st
  /\ Election.my_device_id st' = Election.my_device_id st.
Proof.
  cbv zeta.
  assert (Hrole : Election.my_role (Election.edtsp_perform_election st).1
                  = computed_role st).
  { rewrite elected_role, highest_active_max. reflexivity. }
  split; [exact Hrole|]. split.
  { rewrite <- Hrole. apply election_role_is_max. }
  unfold Election.edtsp_perform_election. simpl.
  rewrite highest_active_max.
  change (foldr Z.max (Election.my_device_id st) (Election.active_ids st))
    with (winner st).
  change (if winner st =? Election.my_device_id st
          then EDTSP_ROLE_MASTER else EDTSP_ROLE_SLAVE)
    with (computed_role st).
  split; [|split; [|split; [|repeat split]]].
  - intros Hne.
    destruct (Z.eqb_spec (Election.my_role st) (computed_role st)) as [E|E].
    + congruence.
    + reflexivity.
  - intros He. rewrite He, Z.eqb_refl. simpl. split; [reflexivity|].
    destruct st; unfold Election.with_role; simpl in *. now rewrite <- He.
  - assert (Hsame : Election.highest_active
                      (Election.with_role (computed_role st) st)
                    = Election.highest_active st) by reflexivity.
    rewrite Hsame, highest_active_max.
    change (foldr Z.max (Election.my_device_id st) (Election.active_ids st))
      with (winner st).
    change (if winner st =? Election.my_device_id st
            then EDTSP_ROLE_MASTER else EDTSP_ROLE_SLAVE)
      with (computed_role st).
    now rewrite Z.eqb_refl.
Qed.

Lemma election_reports_transition_witness :
  (Election.edtsp_perform_election (Election.edtsp_election_init 100)).2
  = [Election.LogRoleChange EDTSP_ROLE_UNKNOWN EDTSP_ROLE_MASTER 100 100]
  /\ (Election.edtsp_perform_election
        (Election.edtsp_perform_election
           (Election.edtsp_election_init 100)).1).2 = []
  /\ Election.my_role
       (Election.edtsp_perform_election (Pc.election watching)).1
     = EDTSP_ROLE_SLAVE.
Proof.
  destruct (election_reports_transition (Election.edtsp_election_init 100))
    as (_ & _ & Hdiff & _ & Hagain & _).
  destruct (election_reports_transition (Pc.election watching))
    as (Hrole & _).
  split; [|split].
  - apply Hdiff. vm_compute. discriminate.
  - now rewrite Hagain.
  - rewrite Hrole. vm_compute. reflexivity.
Defined.

(** ** The active device count *)

Section ActiveCount.

Import Election.

Lemma count_loop (l : list EDTSPDeviceInfo) (c : Z) :
  is_u8 c ->
  fold_left (fun count d => if active d then u8 (count + 1) else count) l c
  = u8 (c + Z.of_nat (length (filter (fun d => active d = true) l))).
Proof.
  revert c. induction l as [|d l IH]; intros c Hc; simpl.
  - unfold u8. rewrite Z.add_0_r. symmetry. now apply Z.mod_small.
  - rewrite filter_cons. destruct (active d) eqn:Ea; simpl.
    + rewrite IH by (unfold is_u8, u8; apply Z.mod_pos_bound; lia).
      unfold u8. rewrite Zplus_mod_idemp_l. f_equal. lia.
    + now apply IH.
Qed.

End ActiveCount.

(** C10.  The count reported in heartbeats is one plus the number of
    active records, reduced modulo 256 because it is a [uint8_t]; with
    exactly 255 active records it is 0. *)
Theorem active_device_count_wraps (st : Election.state) :
  Election.edtsp_get_active_device_count st
    = (1 + Z.of_nat (length (Election.active_ids st))) mod 256
  /\ is_u8 (Election.edtsp_get_active_device_count st)
  /\ (length (Election.active_ids st) = 255%nat ->
      Election.edtsp_get_active_device_count st = 0).
Proof.
  assert (E : Election.edtsp_get_active_device_count st
              = (1 + Z.of_nat (length (Election.active_ids st))) mod 256).
  { unfold Election.edtsp_get_active_device_count, Election.active_ids.
    rewrite count_loop by (unfold is_u8; lia). now rewrite length_fmap. }
  split; [exact E|]. split.
  - rewrite E. unfold is_u8. apply Z.mod_pos_bound. lia.
  - intros H. rewrite E, H. reflexivity.
Qed.

Lemma active_device_count_wraps_witness :
  length (Election.active_ids busy) = 255%nat
  /\ Election.edtsp_get_active_device_count busy = 0.
Proof.
  assert (H : length (Election.active_ids busy) = 255%nat)
    by (vm_compute; reflexivity).
  split; [exact H|].
  exact (proj2 (proj2 (active_device_count_wraps busy)) H).
Defined.

Example active_device_count_alone :
  Election.edtsp_get_active_device_count (Election.edtsp_election_init 7) = 1.
Proof. reflexivity. Qed.

(** ** The timeout sweep *)

Section Sweep.

Import Election.

Lemma sweep_length now l : length (sweep now l).1.1 = length l.
Proof.
  induction l as [|d l IH]; simpl; [reflexivity|].
  destruct (sweep now l) as [[tl' ch] lg]; simpl in *.
  destruct (active d); simpl; [|now rewrite IH].
  destruct (_ <? _); simpl; now rewrite IH.
Qed.

(** A sweep that reports no change changed and printed nothing. *)
Lemma sweep_unchanged now l :
  (sweep now l).1.2 = false -> sweep now l = (l, false, []).
Proof.
  induction l as [|d l IH]; simpl; [reflexivity|].
  destruct (sweep now l) as [[tl' ch] lg]; simpl in *.
  destruct (active d); simpl.
  - destruct (_ <? _); simpl; [discriminate|].
    intros ->. specialize (IH eq_refl). now inversion IH.
  - intros ->. specialize (IH eq_refl). now inversion IH.
Qed.

(** A sweep that reports a change cleared an active flag. *)
Lemma sweep_changed now l :
  (sweep now l).1.2 = true ->
  exists d, d ∈ l /\ active d = true
            /\ EDTSP_HEARTBEAT_TIMEOUT_MS < u64 (now - last_heartbeat_ms d)
            /\ set_inactive d ∈ (sweep now l).1.1.
Proof.
  induction l as [|d l IH]; simpl; [discriminate|].
  destruct (sweep now l) as [[tl' ch] lg]; simpl in *.
  assert (Hrec : ch = true ->
            exists d0, d0 ∈ d :: l /\ active d0 = true
              /\ EDTSP_HEARTBEAT_TIMEOUT_MS < u64 (now - last_heartbeat_ms d0)
              /\ forall x, set_inactive d0 ∈ x :: tl').
  { intros Hc. destruct (IH Hc) as (d0 & ? & ? & ? & ?).
    exists d0. repeat split; auto using list_elem_of_further. }
  destruct (active d) eqn:Ea; simpl.
  - destruct (Z.ltb_spec EDTSP_HEARTBEAT_TIMEOUT_MS
                (u64 (now - last_heartbeat_ms d))); simpl.
    + intros _. exists d. repeat split; auto using list_elem_of_here.
    + intros Hc. destruct (Hrec Hc) as (d0 & ? & ? & ? & ?). eauto 6.
  - intros Hc. destruct (Hrec Hc) as (d0 & ? & ? & ? & ?). eauto 6.
Qed.

(** Sweeping the result of a sweep, at the same time, changes nothing. *)
Lemma sweep_idem now l :
  sweep now (sweep now l).1.1 = ((sweep now l).1.1, false, []).
Proof.
  induction l as [|d l IH]; simpl; [reflexivity|].
  destruct (sweep now l) as [[tl' ch] lg]; simpl in *.
  destruct (active d) eqn:Ea; simpl.
  - destruct (Z.ltb_spec EDTSP_HEARTBEAT_TIMEOUT_MS
                (u64 (now - last_heartbeat_ms d))) as [Ht|Ht]; simpl.
    + now rewrite IH.
    + rewrite IH, Ea. simpl. now decide_cmp.
  - now rewrite IH, Ea.
Qed.

Lemma tracked_after_sweep (swept dl : list EDTSPDeviceInfo) (n : nat) :
  length swept = length (take n dl) ->
  take n (swept ++ drop n dl) = swept
  /\ swept ++ drop n (swept ++ drop n dl) = swept ++ drop n dl.
Proof.
  intros Hlen. rewrite length_take in Hlen.
  destruct (Nat.le_gt_cases n (length dl)) as [Hn|Hn].
  - assert (length swept = n) by lia. split.
    + now apply take_app_length'.
    + now rewrite drop_app_length'.
  - assert (E : drop n dl = []) by (apply drop_ge; lia). rewrite E, !app_nil_r.
    split.
    + apply take_ge. lia.
    + rewrite (drop_ge swept) by lia. now rewrite app_nil_r.
Qed.

(** What the loops visit after [edtsp_check_timeouts] is the result of
    its sweep. *)
Lemma tracked_check_timeouts now st :
  tracked (edtsp_check_timeouts now st).1 = (sweep now (tracked st)).1.1.
Proof.
  unfold edtsp_check_timeouts.
  pose proof (sweep_length now (tracked st)) as Hlen.
  destruct (sweep now (tracked st)) as [[swept ch] lg]; simpl in *.
  destruct (tracked_after_sweep swept (device_list st)
              (Z.to_nat (device_count st)) Hlen) as [Htake _].
  destruct ch; unfold edtsp_perform_election, with_role, with_devices;
    simpl; exact Htake.
Qed.

(** The state [edtsp_check_timeouts] leaves is a fixed point of it. *)
Lemma check_timeouts_idem now st :
  edtsp_check_timeouts now (edtsp_check_timeouts now st).1
  = ((edtsp_check_timeouts now st).1, []).
Proof.
  unfold edtsp_check_timeouts at 2 3.
  pose proof (sweep_idem now (tracked st)) as Hidem.
  pose proof (sweep_length now (tracked st)) as Hlen.
  destruct (sweep now (tracked st)) as [[swept ch] lg]; simpl in *.
  destruct (tracked_after_sweep swept (device_list st)
              (Z.to_nat (device_count st)) Hlen) as [Htake Hdrop].
  assert (Hfix : forall r,
    edtsp_check_timeouts now
      {| device_list := swept ++ drop (Z.to_nat (device_count st))
                                   (device_list st);
         device_count := device_count st;
         my_device_id := my_device_id st;
         my_role := r |}
    = ({| device_list := swept ++ drop (Z.to_nat (device_count st))
                                    (device_list st);
          device_count := device_count st;
          my_device_id := my_device_id st;
          my_role := r |}, [])).
  { intros r. unfold edtsp_check_timeouts, tracked, with_devices; simpl.
    rewrite Htake, Hidem. simpl. now rewrite Hdrop. }
  destruct ch; unfold edtsp_perform_election, with_role, with_devices;
    simpl; apply Hfix.
Qed.

End Sweep.

(** C7.  After one timeout sweep at [now_ms], any number of further sweeps
    at the same [now_ms] leave the whole state, and so every active flag
    and timestamp, as the first sweep left it; each of them finds no flag
    to flip, prints nothing and runs no election. *)
Theorem sweep_timeouts_idempotent (st : Election.state) (now_ms : Z) (n : nat) :
  let st1 := (Election.edtsp_check_timeouts now_ms st).1 in
  let again :=
    Nat.iter n (fun s => (Election.edtsp_check_timeouts now_ms s).1) st1 in
  again = st1
  /\ (Election.sweep now_ms (Election.tracked again)).1.2 = false
  /\ Election.edtsp_check_timeouts now_ms again = (again, []).
Proof.
  cbv zeta.
  assert (Hagain :
    Nat.iter n (fun s => (Election.edtsp_check_timeouts now_ms s).1)
      (Election.edtsp_check_timeouts now_ms st).1
    = (Election.edtsp_check_timeouts now_ms st).1).
  { induction n as [|n IH]; simpl; [reflexivity|].
    rewrite IH. now rewrite check_timeouts_idem. }
  rewrite Hagain. split; [reflexivity|]. split.
  - rewrite tracked_check_timeouts. now rewrite sweep_idem.
  - apply check_timeouts_idem.
Qed.

(** ** Observations *)

Section Observe.

Import Election.

(** The scan finds the first slot that holds the identifier. *)
Lemma find_loop_found (l : list EDTSPDeviceInfo) (i id : Z) :
  id ∈ (device_id <$> l) ->
  exists (k : nat) (d : EDTSPDeviceInfo),
    find_loop l i id = i + Z.of_nat k
    /\ l !! k = Some d /\ device_id d = id
    /\ forall (j : nat) d', (j < k)%nat -> l !! j = Some d' ->
         device_id d' <> id.
Proof.
  revert i. induction l as [|d l IH]; intros i Hin; simpl.
  - inversion Hin.
  - destruct (Z.eqb_spec (device_id d) id) as [E|E].
    + exists 0%nat, d. repeat split; auto; [lia|]. intros j d' Hj. lia.
    + rewrite fmap_cons in Hin.
      apply elem_of_cons in Hin as [Hin|Hin]; [congruence|].
      destruct (IH (i + 1) Hin) as (k & d1 & Hr & Hk & Hd & Hfirst).
      exists (S k), d1. repeat split; auto; [lia|].
      intros [|j] d' Hj Hl; simpl in Hl.
      * now inversion Hl; subst.
      * apply (Hfirst j); [lia|exact Hl].
Qed.

Lemma find_loop_missing (l : list EDTSPDeviceInfo) (i id : Z) :
  id ∉ (device_id <$> l) -> find_loop l i id = -1.
Proof.
  revert i. induction l as [|d l IH]; intros i Hnot; simpl; [reflexivity|].
  rewrite fmap_cons in Hnot. apply not_elem_of_cons in Hnot as [Hne Hnot].
  destruct (Z.eqb_spec (device_id d) id); [congruence|]. now apply IH.
Qed.

Lemma fmap_device_id_refresh (l : list EDTSPDeviceInfo) (k : nat) (t r : Z) :
  device_id <$> alter (refresh t r) k l = device_id <$> l.
Proof.
  apply list_eq. intros j. rewrite !list_lookup_fmap.
  destruct (decide (k = j)) as [->|Hne].
  - rewrite list_lookup_alter_eq. now destruct (l !! j).
  - now rewrite list_lookup_alter_ne.
Qed.

End Observe.

(** C8.  When a tracked slot holds [device_id], the observation rewrites
    the first such slot, the one [find_device_index] returns: its timestamp
    becomes [now_ms], its role the announced role and its flag [true],
    whatever the flag was.  Every other slot, the count, the identifiers in
    the table and the own role are kept and nothing is printed, so no
    record is created; the identifier is among the active identifiers the
    next election compares. *)
Theorem observe_known_device (st : Election.state) (id now_ms role0 : Z) :
  id ∈ (Election.device_id <$> Election.tracked st) ->
  let k := Z.to_nat (Election.find_device_index st id) in
  let st' := (Election.edtsp_update_device id now_ms role0 st).1 in
  (exists d, Election.tracked st !! k = Some d /\ Election.device_id d = id)
  /\ Election.device_list st' !! k
     = Some {| Election.device_id := id;
               Election.last_heartbeat_ms := now_ms;
               Election.role := role0;
               Election.active := true |}
  /\ (forall j : nat, j <> k ->
        Election.device_list st' !! j = Election.device_list st !! j)
  /\ Election.device_count st' = Election.device_count st
  /\ Election.device_id <$> Election.device_list st'
     = Election.device_id <$> Election.device_list st
  /\ Election.my_device_id st' = Election.my_device_id st
  /\ Election.my_role st' = Election.my_role st
  /\ (Election.edtsp_update_device id now_ms role0 st).2 = []
  /\ id ∈ Election.active_ids st'.
Proof.
  intros Hin. cbv zeta.
  destruct (find_loop_found (Election.tracked st) 0 id Hin)
    as (k & d & Hidx & Hk & Hd & _).
  unfold Election.edtsp_update_device, Election.find_device_index.
  rewrite Hidx. replace (0 + Z.of_nat k =? -1) with false
    by (symmetry; apply Z.eqb_neq; lia).
  rewrite Z.add_0_l, Nat2Z.id. simpl.
  assert (Hkl : Election.device_list st !! k = Some d /\
                (k < Z.to_nat (Election.device_count st))%nat).
  { unfold Election.tracked in Hk. now apply lookup_take_Some in Hk. }
  destruct Hkl as [Hkl Hkn].
  split; [eauto|]. split.
  - rewrite list_lookup_alter_eq, Hkl. simpl. unfold Election.refresh.
    now rewrite Hd.
  - split; [intros j Hj; now apply list_lookup_alter_ne|].
    split; [reflexivity|]. split; [apply fmap_device_id_refresh|].
    do 3 (split; [reflexivity|]).
    unfold Election.active_ids, Election.tracked; simpl.
    apply list_elem_of_fmap.
    exists (Election.refresh now_ms role0 d). split; [now rewrite <- Hd|].
    apply list_elem_of_filter. split; [reflexivity|].
    apply list_elem_of_lookup. exists k.
    rewrite lookup_take_lt by assumption.
    now rewrite list_lookup_alter_eq, Hkl.
Qed.

Lemma observe_known_device_witness :
  Election.active_ids lapsed = []
  /\ Election.device_list
       (Election.edtsp_update_device 200 7000 EDTSP_ROLE_MASTER lapsed).1 !! 1%nat
     = Some {| Election.device_id := 200;
               Election.last_heartbeat_ms := 7000;
               Election.role := EDTSP_ROLE_MASTER;
               Election.active := true |}
  /\ 200 ∈ Election.active_ids
             (Election.edtsp_update_device 200 7000 EDTSP_ROLE_MASTER lapsed).1.
Proof.
  assert (Hin : 200 ∈ (Election.device_id <$> Election.tracked lapsed)).
  { vm_compute. apply list_elem_of_further, list_elem_of_here. }
  destruct (observe_known_device lapsed 200 7000 EDTSP_ROLE_MASTER Hin)
    as (_ & Hslot & _ & _ & _ & _ & _ & _ & Hactive).
  split; [reflexivity|]. split; [exact Hslot|exact Hactive].
Defined.

(** ** The table keeps its size and the counter its range *)

Section Invariant.

Import Election.

Lemma wf_init id : wf (edtsp_election_init id).
Proof.
  unfold wf, edtsp_election_init; simpl. split; [reflexivity|lia].
Qed.

Lemma wf_update_device id now role0 st :
  wf st -> wf (edtsp_update_device id now role0 st).1.
Proof.
  intros [Hlen Hc]. unfold edtsp_update_device.
  destruct (find_device_index st id =? -1).
  - destruct (EDTSP_MAX_DEVICES <=? device_count st);
      unfold wf, with_devices; cbn [fst device_list device_count].
    + now split.
    + split; [now rewrite !length_alter|].
      unfold u8. apply Z.mod_pos_bound. lia.
  - unfold wf, with_devices; cbn [fst device_list device_count].
    split; [now rewrite length_alter|assumption].
Qed.

Lemma wf_perform_election st : wf st -> wf (edtsp_perform_election st).1.
Proof. intros H. exact H. Qed.

Lemma wf_check_timeouts now st : wf st -> wf (edtsp_check_timeouts now st).1.
Proof.
  intros [Hlen Hc]. unfold edtsp_check_timeouts.
  pose proof (sweep_length now (tracked st)) as Hs.
  destruct (sweep now (tracked st)) as [[swept ch] lg]; simpl in Hs.
  assert (Hl : length (swept ++ drop (Z.to_nat (device_count st))
                                  (device_list st))
               = Z.to_nat EDTSP_MAX_DEVICES).
  { rewrite length_app, Hs, length_drop. unfold tracked.
    rewrite length_take. lia. }
  destruct ch; simpl; now split.
Qed.

(** The guard of [edtsp_update_device] is never taken, so the full table
    is never reported. *)
Lemma device_list_full_never_printed id now role0 st :
  wf st -> LogDeviceListFull ∉ (edtsp_update_device id now role0 st).2.
Proof.
  intros [_ Hc]. unfold edtsp_update_device.
  destruct (find_device_index st id =? -1).
  - unfold EDTSP_MAX_DEVICES. decide_cmp. simpl.
    intros H. apply list_elem_of_singleton in H. discriminate.
  - simpl. apply not_elem_of_nil.
Qed.

End Invariant.

(** ** Capacity *)

Section Capacity.

Import Election.

(** [device_count] never reaches [EDTSP_MAX_DEVICES]: an identifier that
    is in no tracked slot is always stored, in slot [device_count], and the
    counter is incremented modulo 256. *)
Lemma unknown_device_always_stored (st : state) (id now role0 : Z) :
  is_u8 (device_count st) ->
  id ∉ (device_id <$> tracked st) ->
  edtsp_update_device id now role0 st
  = (with_devices
       (alter (refresh now role0) (Z.to_nat (device_count st))
          (alter (set_device_id id) (Z.to_nat (device_count st))
             (device_list st)))
       ((device_count st + 1) mod 256) st,
     [LogNewDevice id]).
Proof.
  intros Hc Hnot. unfold edtsp_update_device, find_device_index.
  rewrite find_loop_missing by assumption. simpl.
  unfold is_u8 in Hc. unfold EDTSP_MAX_DEVICES. decide_cmp. reflexivity.
Qed.

End Capacity.

(** C2 at the failing input.  After 256 distinct devices the counter is
    back at 0 although the table holds all 256, so no device counts as
    active; the 257th identifier is then stored in slot 0 over device 1,
    announced as a new device, and no full table is reported. *)
Theorem capacity_overflow_overwrites :
  length (seqZ 1 256) = 256%nat
  /\ Election.device_id <$> Election.device_list crowded = seqZ 1 256
  /\ Election.device_count crowded = 0
  /\ Election.active_ids crowded = []
  /\ (Election.edtsp_update_device 2000 1 EDTSP_ROLE_SLAVE crowded).2
     = [Election.LogNewDevice 2000]
  /\ Election.device_id
       <$> Election.device_list
             (Election.edtsp_update_device 2000 1 EDTSP_ROLE_SLAVE crowded).1
     = 2000 :: seqZ 2 255
  /\ Election.device_count
       (Election.edtsp_update_device 2000 1 EDTSP_ROLE_SLAVE crowded).1 = 1.
Proof. vm_compute. repeat split. Qed.

(** ** When the election runs *)

Section Triggers.

Import Election.

Lemma with_devices_same st :
  with_devices (device_list st) (device_count st) st = st.
Proof. now destruct st. Qed.

Lemma check_timeouts_changed now e :
  (sweep now (tracked e)).1.2 = true ->
  edtsp_check_timeouts now e
  = ((edtsp_perform_election (swept_state now e)).1,
     (sweep now (tracked e)).2
     ++ (edtsp_perform_election (swept_state now e)).2).
Proof.
  unfold edtsp_check_timeouts, swept_state.
  destruct (sweep now (tracked e)) as [[swept ch] lg]; simpl.
  intros ->. reflexivity.
Qed.

Lemma check_timeouts_unchanged now e :
  (sweep now (tracked e)).1.2 = false -> edtsp_check_timeouts now e = (e, []).
Proof.
  intros Hc. unfold edtsp_check_timeouts.
  rewrite (sweep_unchanged now (tracked e) Hc).
  unfold tracked. rewrite take_drop. now rewrite with_devices_same.
Qed.

End Triggers.

(** C3 at the failing input.  The table of [crowded_pc] holds 256 devices,
    none of them 2000, and the role is Master.  The heartbeat of the unknown
    device 2000 is not rejected: it is stored as a new device, the election
    runs on it and the role is recomputed, to Slave, with the role change
    printed.  On the registry as it was, the election would have changed
    and printed nothing. *)
Lemma full_registry_heartbeat_reelects :
  Election.device_id <$> Election.device_list (Pc.election crowded_pc)
    = seqZ 1 256
  /\ Election.my_role (Pc.election crowded_pc) = EDTSP_ROLE_MASTER
  /\ Pc.receive_packets heartbeat_2000 14 1 crowded_pc
     = (Pc.with_election
          (Election.edtsp_perform_election
             (Election.edtsp_update_device 2000 1 EDTSP_ROLE_SLAVE
                (Pc.election crowded_pc)).1).1
          crowded_pc,
        [Pc.RxHeartbeat 2000 EDTSP_ROLE_SLAVE 0 1;
         Pc.Elect (Election.LogNewDevice 2000);
         Pc.Elect (Election.LogRoleChange EDTSP_ROLE_MASTER EDTSP_ROLE_SLAVE
                     1000 2000)])
  /\ Election.my_role
       (Pc.election (Pc.receive_packets heartbeat_2000 14 1 crowded_pc).1)
     = EDTSP_ROLE_SLAVE
  /\ Election.edtsp_perform_election (Pc.election crowded_pc)
     = (Pc.election crowded_pc, []).
Proof. vm_compute. repeat split. Qed.

(** When the election runs.  Both handlers run the election on the
    registry [edtsp_update_device] leaves, whatever it did with the
    observation, so the role after a Discovery or Heartbeat is Master
    exactly when the own identifier is the maximum over that registry.  A
    timeout sweep that cleared a flag runs the election on the swept
    registry; a sweep that cleared none leaves the state as it was and
    prints nothing; so does a packet whose header is rejected. *)
Theorem reelection_triggers (st : Pc.state) (now : Z) :
  (forall pkt : Heartbeat.EDTSPHeartbeatPacket,
     let e1 := (Election.edtsp_update_device
                  (source_id (Heartbeat.header pkt)) now (Heartbeat.role pkt)
                  (Pc.election st)).1 in
     let e2 := Pc.election (Pc.handle_heartbeat pkt now st).1 in
     e2 = (Election.edtsp_perform_election e1).1
     /\ (Election.my_role e2 = EDTSP_ROLE_MASTER
         <-> is_max (Election.my_device_id e1)
               (active_set e1 ∪ {[Election.my_device_id e1]})))
  /\ (forall pkt : Discovery.EDTSPDiscoveryPacket,
        let e1 := (Election.edtsp_update_device
                     (source_id (Discovery.header pkt)) now EDTSP_ROLE_UNKNOWN
                     (Pc.election st)).1 in
        let e2 := Pc.election (Pc.handle_discovery pkt now st).1 in
        e2 = (Election.edtsp_perform_election e1).1
        /\ (Election.my_role e2 = EDTSP_ROLE_MASTER
            <-> is_max (Election.my_device_id e1)
                  (active_set e1 ∪ {[Election.my_device_id e1]})))
  /\ ((Election.sweep now (Election.tracked (Pc.election st))).1.2 = true ->
      Pc.election (Pc.check_timeouts now st).1
      = (Election.edtsp_perform_election
           (swept_state now (Pc.election st))).1)
  /\ ((Election.sweep now (Election.tracked (Pc.election st))).1.2 = false ->
      Pc.check_timeouts now st = (st, []))
  /\ (forall buffer bytes,
        (edtsp_parse_header (Some (Pc.header_at buffer))).1 = false ->
        Pc.receive_packets buffer bytes now st = (st, [])).
Proof.
  split; [|split; [|split; [|split]]].
  - intros pkt. cbv zeta.
    assert (E : Pc.election (Pc.handle_heartbeat pkt now st).1
                = (Election.edtsp_perform_election
                     (Election.edtsp_update_device
                        (source_id (Heartbeat.header pkt)) now
                        (Heartbeat.role pkt) (Pc.election st)).1).1).
    { unfold Pc.handle_heartbeat; simpl.
      destruct (Election.edtsp_update_device _ _ _ _) as [e1 lg1]. reflexivity. }
    split; [exact E|]. rewrite E.
    apply (election_role_is_max _).
  - intros pkt. cbv zeta.
    assert (E : Pc.election (Pc.handle_discovery pkt now st).1
                = (Election.edtsp_perform_election
                     (Election.edtsp_update_device
                        (source_id (Discovery.header pkt)) now
                        EDTSP_ROLE_UNKNOWN (Pc.election st)).1).1).
    { unfold Pc.handle_discovery; simpl.
      destruct (Election.edtsp_update_device _ _ _ _) as [e1 lg1]. reflexivity. }
    split; [exact E|]. rewrite E.
    apply (election_role_is_max _).
  - intros Hc. unfold Pc.check_timeouts, Pc.lift.
    now rewrite check_timeouts_changed.
  - intros Hc. unfold Pc.check_timeouts, Pc.lift.
    rewrite check_timeouts_unchanged by assumption. now destruct st.
  - intros buffer bytes. apply receive_invalid_header.
Qed.

Lemma reelection_triggers_witness :
  Election.my_role (Pc.election watching) = EDTSP_ROLE_SLAVE
  /\ (Election.sweep 6000 (Election.tracked (Pc.election watching))).1.2 = true
  /\ Election.my_role (Pc.election (Pc.check_timeouts 6000 watching).1)
     = EDTSP_ROLE_MASTER
  /\ Pc.check_timeouts 4000 watching = (watching, []).
Proof.
  destruct (reelection_triggers watching 6000) as (_ & _ & Hflip & _ & _).
  destruct (reelection_triggers watching 4000) as (_ & _ & _ & Hsame & _).
  assert (H1 : (Election.sweep 6000
                  (Election.tracked (Pc.election watching))).1.2 = true)
    by (vm_compute; reflexivity).
  assert (H2 : (Election.sweep 4000
                  (Election.tracked (Pc.election watching))).1.2 = false)
    by (vm_compute; reflexivity).
  split; [vm_compute; reflexivity|]. split; [exact H1|]. split.
  - rewrite (Hflip H1). vm_compute. reflexivity.
  - exact (Hsame H2).
Defined.

(** ** On the wire

    The bytes a heartbeat is sent as are big-endian, and a receiving process
    reads back what the sender put in. *)

Section Wire.

Lemma bytes_of_u16 v :
  is_u16 v -> v mod 2 ^ 8 + 2 ^ 8 * (v / 2 ^ 8 mod 2 ^ 8) = v.
Proof. unfold is_u16. intros H. Z.div_mod_to_equations. lia. Qed.

Lemma bytes_of_u32 v :
  is_u32 v ->
  v mod 2 ^ 8 + 2 ^ 8 * (v / 2 ^ 8 mod 2 ^ 8)
  + 2 ^ 16 * (v / 2 ^ 16 mod 2 ^ 8) + 2 ^ 24 * (v / 2 ^ 24 mod 2 ^ 8) = v.
Proof. unfold is_u32. intros H. Z.div_mod_to_equations. lia. Qed.

Lemma swap32_range x : is_u32 (edtsp_swap32 x).
Proof.
  assert (E : edtsp_swap32 x = edtsp_swap32 x mod 2 ^ 32).
  { apply Z.bits_inj'. intros i Hi. rewrite testbit_mod2 by lia.
    destruct (Z.ltb_spec i 32); simpl; [reflexivity|].
    rewrite swap32_bits by lia. decide_cmp. reflexivity. }
  rewrite E. unfold is_u32. apply Z.mod_pos_bound. lia.
Qed.

Lemma swap32_byte x k :
  k = 0 \/ k = 8 \/ k = 16 \/ k = 24 ->
  edtsp_swap32 x / 2 ^ k mod 2 ^ 8 = x / 2 ^ (24 - k) mod 2 ^ 8.
Proof.
  intros Hk. apply Z.bits_inj'. intros i Hi.
  rewrite !testbit_mod2, !Z.div_pow2_bits, swap32_bits by lia.
  destruct (Z.ltb_spec i 8); simpl; [|reflexivity].
  destruct Hk as [-> | [-> | [-> | ->]]]; decide_cmp; f_equal; lia.
Qed.

(** The datagram of a header: magic, kind, identifier high byte first,
    payload length. *)
Lemma header_on_the_wire h kind sid plen :
  Pc.header_bytes (init_header_in h kind sid plen)
  = [0xED; 0x61; kind;
     sid / 2 ^ 24 mod 2 ^ 8; sid / 2 ^ 16 mod 2 ^ 8; sid / 2 ^ 8 mod 2 ^ 8;
     sid mod 2 ^ 8; plen].
Proof.
  unfold Pc.header_bytes, init_header_in, Pc.store16, Pc.store32.
  cbn [edtsp_init_header default from_option id magic type source_id
       payload_len app].
  unfold EDTSP_HTONL.
  rewrite <- (Z.div_1_r (edtsp_swap32 sid)) at 1.
  change 1 with (2 ^ 0) at 1.
  rewrite !swap32_byte by lia.
  change (24 - 0) with 24. change (24 - 8) with 16.
  change (24 - 16) with 8. change (24 - 24) with 0.
  rewrite Z.pow_0_r, Z.div_1_r. reflexivity.
Qed.

(** Reading the bytes of a header gives the header back. *)
Lemma header_at_bytes h rest :
  is_u16 (magic h) -> is_u32 (source_id h) ->
  Pc.header_at (Pc.header_bytes h ++ rest) = h.
Proof.
  intros Hm Hs. destruct h as [m t s p]. simpl in Hm, Hs.
  unfold Pc.header_at, Pc.header_bytes, Pc.load16, Pc.load32, Pc.store16,
    Pc.store32, Pc.byte_at.
  cbn [magic type source_id payload_len app lookup list_lookup default
       from_option id Nat.add].
  now rewrite bytes_of_u16, bytes_of_u32.
Qed.



End Wire.

(** The failover of the process [watching], with what it prints: device
    200 is timed out at 6000 and self (100) goes from Slave to Master. *)
Example failover_printed :
  (Pc.check_timeouts 6000 watching).2
  = [Pc.Elect (Election.LogDeviceTimeout 200 6000);
     Pc.Elect (Election.LogRoleChange EDTSP_ROLE_SLAVE EDTSP_ROLE_MASTER
                 100 100)].
Proof. vm_compute. reflexivity. Qed.

(** * Further properties of the code *)

(** ** Byte order *)

(** X1.  On 16-bit and 32-bit values the byte swaps stay in range, are
    their own inverses, and reverse the bytes: the low byte of the argument
    is the high byte of the result. *)
Theorem byte_swaps_reverse (x y : Z) :
  is_u16 x -> is_u32 y ->
  is_u16 (edtsp_swap16 x) /\ is_u32 (edtsp_swap32 y)
  /\ edtsp_swap16 (edtsp_swap16 x) = x
  /\ edtsp_swap32 (edtsp_swap32 y) = y
  /\ edtsp_swap16 x = 2 ^ 8 * (x mod 2 ^ 8) + x / 2 ^ 8
  /\ edtsp_swap32 y
     = 2 ^ 24 * (y mod 2 ^ 8) + 2 ^ 16 * (y / 2 ^ 8 mod 2 ^ 8)
       + 2 ^ 8 * (y / 2 ^ 16 mod 2 ^ 8) + y / 2 ^ 24.
Proof.
  intros Hx Hy.
  split; [apply swap16_range|]. split; [apply swap32_range|].
  split; [now apply swap16_invol|]. split; [now apply swap32_invol|].
  split.
  - pose proof (bytes_of_u16 _ (swap16_range x)) as E.
    assert (Hlo : edtsp_swap16 x mod 2 ^ 8 = x / 2 ^ 8).
    { apply Z.bits_inj'. intros i Hi.
      rewrite testbit_mod2, Z.div_pow2_bits by lia.
      destruct (Z.ltb_spec i 8); simpl.
      - rewrite swap16_bits by (auto; lia). now decide_cmp.
      - symmetry. apply (testbit_high x 16); [exact Hx|lia]. }
    assert (Hhi : edtsp_swap16 x / 2 ^ 8 mod 2 ^ 8 = x mod 2 ^ 8).
    { apply Z.bits_inj'. intros i Hi.
      rewrite !testbit_mod2, Z.div_pow2_bits by lia.
      destruct (Z.ltb_spec i 8); simpl; [|reflexivity].
      rewrite swap16_bits by (auto; lia). decide_cmp. f_equal. lia. }
    rewrite Hlo, Hhi in E. lia.
  - pose proof (bytes_of_u32 _ (swap32_range y)) as E.
    rewrite <- (Z.div_1_r (edtsp_swap32 y)) in E at 1.
    change 1 with (2 ^ 0) in E at 1.
    rewrite !swap32_byte in E by lia.
    change (24 - 0) with 24 in E. change (24 - 8) with 16 in E.
    change (24 - 16) with 8 in E. change (24 - 24) with 0 in E.
    rewrite Z.pow_0_r, Z.div_1_r in E.
    assert (Htop : y / 2 ^ 24 mod 2 ^ 8 = y / 2 ^ 24).
    { apply Z.mod_small. unfold is_u32 in Hy. split.
      - apply Z.div_pos; lia.
      - apply Z.div_lt_upper_bound; lia. }
    rewrite Htop in E. lia.
Qed.

Lemma byte_swaps_reverse_witness :
  edtsp_swap16 0xED61 = 0x61ED /\ edtsp_swap32 0x12345678 = 0x78563412
  /\ edtsp_swap32 (edtsp_swap32 0x12345678) = 0x12345678.
Proof.
  destruct (byte_swaps_reverse 0xED61 0x12345678) as (_ & _ & _ & H & _).
  - unfold is_u16. lia.
  - unfold is_u32. lia.
  - split; [reflexivity|]. split; [reflexivity|exact H].
Defined.

(** ** Headers *)

(** X2.  [edtsp_parse_header] converts in place, so it cannot be applied
    twice: the header it has accepted is rejected by a second call. *)
Theorem parse_header_once (h h1 : EDTSPHeader) :
  edtsp_parse_header (Some h) = (true, Some h1) ->
  (edtsp_parse_header (Some h1)).1 = false
  /\ magic h1 = EDTSP_MAGIC /\ 1 <= type h1 <= 5.
Proof.
  unfold edtsp_parse_header at 1, edtsp_header_valid.
  cbn [magic type]. intros H.
  destruct (Z.eqb_spec (EDTSP_NTOHS (magic h)) EDTSP_MAGIC) as [Em|Em];
    simpl in H; [|discriminate].
  unfold EDTSP_TYPE_DISCOVERY, EDTSP_TYPE_DATA in H.
  destruct (Z.ltb_spec (type h) 1); simpl in H; [discriminate|].
  destruct (Z.ltb_spec 5 (type h)); simpl in H; [discriminate|].
  inversion H; subst h1; clear H. cbn [magic type].
  split; [|split; [exact Em|lia]].
  apply parse_header_verdict. left. cbn [magic]. rewrite Em.
  vm_compute. discriminate.
Qed.

Lemma parse_header_once_witness :
  (edtsp_parse_header (Some (host_header 2 2000 6))).1 = false.
Proof.
  assert (H : edtsp_parse_header
                (edtsp_init_header (Some zero_header) 2 2000 6)
              = (true, Some (host_header 2 2000 6))) by reflexivity.
  exact (proj1 (parse_header_once _ _ H)).
Defined.

(** X3.  A header is valid exactly when its kind has a name: the five
    kinds have five different names and every other kind is [UNKNOWN]. *)
Theorem type_names (t1 t2 : Z) :
  (edtsp_type_name t1 <> "UNKNOWN"%string <-> 1 <= t1 <= 5)
  /\ (edtsp_type_name t1 = edtsp_type_name t2 -> 1 <= t1 <= 5 -> t1 = t2)
  /\ (forall h, edtsp_header_valid (Some h) = true ->
        edtsp_type_name (type h) <> "UNKNOWN"%string).
Proof.
  assert (Hn : forall t, edtsp_type_name t <> "UNKNOWN"%string <-> 1 <= t <= 5).
  { intros t. unfold edtsp_type_name, EDTSP_TYPE_DISCOVERY,
      EDTSP_TYPE_HEARTBEAT, EDTSP_TYPE_HANDSHAKE, EDTSP_TYPE_CONFIG,
      EDTSP_TYPE_DATA.
    repeat match goal with
           | |- context [?a =? ?b] => destruct (Z.eqb_spec a b)
           end; split; intros; try lia; try discriminate; congruence. }
  split; [apply Hn|]. split.
  - unfold edtsp_type_name, EDTSP_TYPE_DISCOVERY,
      EDTSP_TYPE_HEARTBEAT, EDTSP_TYPE_HANDSHAKE, EDTSP_TYPE_CONFIG,
      EDTSP_TYPE_DATA.
    repeat match goal with
           | |- context [?a =? ?b] => destruct (Z.eqb_spec a b)
           end; intros; try lia; try discriminate.
  - intros h Hv. apply Hn. unfold edtsp_header_valid in Hv.
    unfold EDTSP_TYPE_DISCOVERY, EDTSP_TYPE_DATA in Hv.
    destruct (magic h =? EDTSP_MAGIC); simpl in Hv; [|discriminate].
    destruct (Z.ltb_spec (type h) 1); simpl in Hv; [discriminate|].
    destruct (Z.ltb_spec 5 (type h)); simpl in Hv; [discriminate|]. lia.
Qed.

Lemma type_names_witness :
  edtsp_type_name 5 <> "UNKNOWN"%string /\ edtsp_type_name 6 = "UNKNOWN"%string.
Proof.
  destruct (type_names 5 5) as (H & _).
  split; [apply H; lia|reflexivity].
Defined.

(** X4.  Ethernet is preferred to WiFi and WiFi to 5G; every other
    interface value has priority 99, behind all three, and these are the
    values named [UNKNOWN]. *)
Theorem iface_priorities (iface : Z) :
  edtsp_iface_priority EDTSP_IFACE_ETH < edtsp_iface_priority EDTSP_IFACE_WIFI
  /\ edtsp_iface_priority EDTSP_IFACE_WIFI < edtsp_iface_priority EDTSP_IFACE_5G
  /\ edtsp_iface_priority EDTSP_IFACE_5G < 99
  /\ (edtsp_iface_priority iface = 99 <-> ~ 1 <= iface <= 3)
  /\ (edtsp_iface_name iface = "UNKNOWN"%string
      <-> edtsp_iface_priority iface = 99)
  /\ (1 <= iface <= 3 -> edtsp_iface_priority iface = iface).
Proof.
  do 3 (split; [reflexivity|]).
  unfold edtsp_iface_priority, edtsp_iface_name, EDTSP_IFACE_ETH,
    EDTSP_IFACE_WIFI, EDTSP_IFACE_5G.
  repeat match goal with
         | |- context [?a =? ?b] => destruct (Z.eqb_spec a b)
         end; repeat split; intros; try lia; try discriminate; try reflexivity.
Qed.

(** ** Discovery packets *)

Lemma c_string_nonzero s : Forall (fun c => c <> 0) (c_string s).
Proof.
  induction s as [|c s IH]; simpl; [constructor|].
  destruct (Z.eqb_spec c 0); [constructor|]. now constructor.
Qed.

Lemma strncpy_zeroed (src : list Z) (n m : nat) :
  (n < m)%nat ->
  let field := strncpy (replicate m 0) src n in
  length field = m
  /\ c_string field = take n (c_string src)
  /\ field !! n = Some 0.
Proof.
  intros Hnm. cbv zeta. unfold strncpy.
  set (s := take n (c_string src)).
  assert (Hs : Forall (fun c => c <> 0) s).
  { unfold s. apply Forall_take, c_string_nonzero. }
  assert (Hl : (length s <= n)%nat).
  { unfold s. rewrite length_take. lia. }
  rewrite drop_replicate.
  destruct (m - n)%nat as [|k] eqn:Ek; [lia|].
  split; [|split].
  - rewrite !length_app, !length_replicate. lia.
  - destruct (n - length s)%nat; simpl; now apply c_string_app_nul.
  - rewrite lookup_app_r by lia.
    rewrite lookup_app_r by (rewrite length_replicate; lia).
    rewrite length_replicate.
    replace (n - length s - (n - length s))%nat with 0%nat by lia.
    reflexivity.
Qed.

(** X5.  Whatever the name, the Discovery builder leaves a name field of
    32 bytes whose last byte is NUL and which reads back as the first 31
    characters of the name; without a name the field reads back empty. *)
Theorem discovery_name_truncated (pkt : Discovery.EDTSPDiscoveryPacket)
    (sid iface : Z) (name : list Z) :
  (exists p,
     Discovery.edtsp_build_discovery (Some pkt) sid iface (Some name) = Some p
     /\ length (Discovery.device_name p) = 32%nat
     /\ Discovery.device_name p !! 31%nat = Some 0
     /\ c_string (Discovery.device_name p) = take 31 (c_string name))
  /\ (exists p,
        Discovery.edtsp_build_discovery (Some pkt) sid iface None = Some p
        /\ length (Discovery.device_name p) = 32%nat
        /\ c_string (Discovery.device_name p) = []).
Proof.
  split; eexists; (split; [reflexivity|]);
    cbn [Discovery.device_name Discovery.zero].
  - destruct (strncpy_zeroed name 31 32 ltac:(lia)) as (Hl & Hc & Hz).
    unfold Discovery.sizeof_device_name.
    change (32 - 1)%nat with 31%nat. auto.
  - split; reflexivity.
Qed.

Lemma discovery_at_bytes p rest :
  is_u16 (magic (Discovery.header p)) ->
  is_u32 (source_id (Discovery.header p)) ->
  length (Discovery.device_name p) = 32%nat ->
  Pc.discovery_at (Pc.discovery_bytes p ++ rest) = p.
Proof.
  intros Hm Hs Hl. unfold Pc.discovery_at, Pc.discovery_bytes.
  rewrite <- !app_assoc, header_at_bytes by assumption.
  destruct p as [[m t s pl] i v nm].
  unfold Pc.header_bytes, Pc.store16, Pc.store32, Pc.byte_at.
  cbn [Discovery.header Discovery.interface_type Discovery.version
       Discovery.device_name magic type source_id payload_len app lookup
       list_lookup default from_option id drop].
  cbn [Discovery.device_name] in Hl.
  unfold Discovery.sizeof_device_name.
  rewrite drop_0. now rewrite take_app_length' by (symmetry; exact Hl).
Qed.

Lemma received_discovery pkt hostname (sender receiver : Pc.state)
    (rest : list Z) (bytes now : Z) :
  is_u32 (Pc.my_id sender) ->
  Pc.my_id sender <> Pc.my_id receiver ->
  42 <= bytes < 2 ^ 64 ->
  Pc.receive_packets (Pc.send_discovery pkt hostname sender ++ rest) bytes now
    receiver
  = Pc.handle_discovery
      {| Discovery.header :=
           host_header EDTSP_TYPE_DISCOVERY (Pc.my_id sender) 34;
         Discovery.interface_type := EDTSP_IFACE_ETH;
         Discovery.version := EDTSP_VERSION;
         Discovery.device_name := sent_name hostname |}
      now receiver.
Proof.
  intros Hid Hne Hbytes.
  destruct (strncpy_zeroed hostname 31 32 ltac:(lia)) as (Hl & Hc & _).
  unfold Pc.send_discovery, Discovery.edtsp_build_discovery.
  unfold Pc.receive_packets.
  rewrite discovery_at_bytes
    by (first [exact Hl | simpl; first [apply swap16_range | apply swap32_range]]).
  unfold Pc.discovery_bytes. rewrite <- !app_assoc.
  rewrite header_at_bytes
    by (simpl; first [apply swap16_range | apply swap32_range]).
  cbn [Discovery.header Discovery.interface_type Discovery.version
       Discovery.device_name Discovery.zero].
  rewrite parse_built_header by (auto; kind_side).
  unfold u64. rewrite Z.mod_small by lia.
  unfold sizeof_EDTSPHeader, Discovery.sizeof_EDTSPDiscoveryPacket,
    host_header, EDTSP_TYPE_DISCOVERY.
  cbn [source_id type].
  decide_cmp.
  destruct (Z.eqb_spec (Pc.my_id sender) (Pc.my_id receiver));
    [contradiction|].
  reflexivity.
Qed.

(** X6.  A Discovery sent by one process and received by another reaches
    the receiver's handler with the sender's identifier, the Ethernet
    interface, the protocol version and the host name cut to 31
    characters. *)
Theorem discovery_over_the_wire pkt hostname (sender receiver : Pc.state)
    (rest : list Z) (bytes now : Z) :
  is_u32 (Pc.my_id sender) ->
  Pc.my_id sender <> Pc.my_id receiver ->
  42 <= bytes < 2 ^ 64 ->
  Pc.receive_packets (Pc.send_discovery pkt hostname sender ++ rest) bytes now
    receiver
  = Pc.handle_discovery
      {| Discovery.header :=
           host_header EDTSP_TYPE_DISCOVERY (Pc.my_id sender) 34;
         Discovery.interface_type := EDTSP_IFACE_ETH;
         Discovery.version := EDTSP_VERSION;
         Discovery.device_name := sent_name hostname |}
      now receiver
  /\ c_string (sent_name hostname) = take 31 (c_string hostname).
Proof.
  intros Hid Hne Hbytes. split; [now apply received_discovery|].
  now destruct (strncpy_zeroed hostname 31 32 ltac:(lia)) as (_ & Hc & _).
Qed.

(** ** The device table *)

Section Table.

Import Election.

Lemma find_loop_range (l : list EDTSPDeviceInfo) (i id : Z) :
  find_loop l i id = -1 \/ i <= find_loop l i id < i + Z.of_nat (length l).
Proof.
  revert i. induction l as [|d l IH]; intros i; simpl; [now left|].
  destruct (device_id d =? id); [right; lia|].
  destruct (IH (i + 1)) as [->|H]; [now left|right; lia].
Qed.

Lemma find_loop_neg (l : list EDTSPDeviceInfo) (i id : Z) :
  0 <= i -> find_loop l i id = -1 -> id ∉ (device_id <$> l).
Proof.
  intros Hi Hr Hin.
  destruct (find_loop_found l i id Hin) as (k & d & E & _). lia.
Qed.

Lemma first_slot_unique l id k1 k2 :
  first_slot l id k1 -> first_slot l id k2 -> k1 = k2.
Proof.
  intros [(d1 & H1 & E1) F1] [(d2 & H2 & E2) F2].
  destruct (Nat.lt_trichotomy k1 k2) as [H|[H|H]]; [|assumption|].
  - exfalso. exact (F2 k1 d1 H H1 E1).
  - exfalso. exact (F1 k2 d2 H H2 E2).
Qed.

Lemma find_first_slot st id k :
  first_slot (tracked st) id k -> find_device_index st id = Z.of_nat k.
Proof.
  intros Hk. assert (Hin : id ∈ (device_id <$> tracked st)).
  { destruct Hk as [(d & Hd & E) _]. apply list_elem_of_fmap. exists d.
    split; [now symmetry|]. now apply list_elem_of_lookup_2 with k. }
  destruct (find_loop_found (tracked st) 0 id Hin) as (k' & d' & E & Hl & Hd & F).
  unfold find_device_index. rewrite E.
  assert (k' = k); [|lia].
  apply (first_slot_unique (tracked st) id); [|exact Hk].
  split; [eauto|exact F].
Qed.

(** What the loops visit after a device was stored in a free slot. *)
Lemma tracked_insert st id ts r :
  wf st -> device_count st < 255 -> id ∉ (device_id <$> tracked st) ->
  tracked (edtsp_update_device id ts r st).1
  = tracked st
    ++ [{| device_id := id; last_heartbeat_ms := ts; role := r;
           active := true |}]
  /\ length (tracked st) = Z.to_nat (device_count st).
Proof.
  intros [Hlen Hc] H255 Hnot.
  rewrite unknown_device_always_stored by (auto; unfold is_u8; lia).
  unfold tracked, with_devices; cbn [fst device_list device_count].
  rewrite Z.mod_small by lia.
  replace (Z.to_nat (device_count st + 1)) with (S (Z.to_nat (device_count st)))
    by lia.
  set (n := Z.to_nat (device_count st)).
  assert (Hn : (n < length (device_list st))%nat).
  { rewrite Hlen. unfold EDTSP_MAX_DEVICES, n. lia. }
  destruct (lookup_lt_is_Some_2 _ _ Hn) as [d Hd].
  split; [|rewrite length_take; lia].
  erewrite take_S_r.
  - now rewrite !take_alter_ge by lia.
  - rewrite !list_lookup_alter_eq, Hd. reflexivity.
Qed.

(** What the loops visit after a tracked device was heard again. *)
Lemma tracked_refresh st id ts r k :
  first_slot (tracked st) id k ->
  tracked (edtsp_update_device id ts r st).1
  = alter (refresh ts r) k (tracked st).
Proof.
  intros Hk. pose proof (find_first_slot st id k Hk) as E.
  unfold edtsp_update_device. rewrite E.
  replace (Z.of_nat k =? -1) with false by (symmetry; apply Z.eqb_neq; lia).
  rewrite Nat2Z.id. unfold tracked, with_devices;
    cbn [fst device_list device_count].
  destruct Hk as [(d & Hd & _) _].
  apply lookup_take_Some in Hd as [_ Hlt].
  now rewrite take_alter_lt.
Qed.

Lemma first_slot_exists l id :
  id ∈ (device_id <$> l) -> exists k, first_slot l id k.
Proof.
  intros Hin. destruct (find_loop_found l 0 id Hin) as (k & d & _ & Hl & Hd & F).
  exists k. split; eauto.
Qed.

(** After an observation that was stored the identifier is found, in a
    slot that holds the observation. *)
Lemma stored_then_found st id ts r :
  wf st ->
  id ∈ (device_id <$> tracked st) \/ device_count st < 255 ->
  exists k : nat,
    first_slot (tracked (edtsp_update_device id ts r st).1) id k
    /\ tracked (edtsp_update_device id ts r st).1 !! k
       = Some {| device_id := id; last_heartbeat_ms := ts; role := r;
                 active := true |}.
Proof.
  intros Hwf Hcase.
  destruct (decide (id ∈ (device_id <$> tracked st))) as [Hin|Hnot].
  - destruct (first_slot_exists _ _ Hin) as [k Hk].
    rewrite (tracked_refresh st id ts r k Hk).
    destruct Hk as [(d & Hd & Ed) F]. exists k.
    assert (Hnew : alter (refresh ts r) k (tracked st) !! k
                   = Some {| device_id := id; last_heartbeat_ms := ts;
                             role := r; active := true |}).
    { rewrite list_lookup_alter_eq, Hd. simpl. unfold refresh. now rewrite Ed. }
    split; [|exact Hnew]. split; [eauto|].
    intros j d' Hj Hl. rewrite list_lookup_alter_ne in Hl by lia.
    exact (F j d' Hj Hl).
  - destruct Hcase as [Hin|H255]; [contradiction|].
    destruct (tracked_insert st id ts r Hwf H255 Hnot) as [E Hl].
    rewrite E. exists (length (tracked st)).
    assert (Hnew : (tracked st
                    ++ [{| device_id := id; last_heartbeat_ms := ts;
                           role := r; active := true |}])
                   !! length (tracked st)
                   = Some {| device_id := id; last_heartbeat_ms := ts;
                             role := r; active := true |}).
    { rewrite lookup_app_r by lia. now rewrite Nat.sub_diag. }
    split; [|exact Hnew]. split; [eauto|].
    intros j d' Hj Hlj. rewrite lookup_app_l in Hlj by lia.
    intros Ed. apply Hnot. apply list_elem_of_fmap. exists d'.
    split; [now symmetry|]. now apply list_elem_of_lookup_2 with j.
Qed.

End Table.

(** X7.  [find_device_index] returns -1 exactly when no tracked slot holds
    the identifier; otherwise it returns the index of the first tracked
    slot that holds it, below [device_count]. *)
Theorem find_device_index_first (st : Election.state) (id : Z) :
  let r := Election.find_device_index st id in
  (r = -1 <-> id ∉ (Election.device_id <$> Election.tracked st))
  /\ (r <> -1 ->
      0 <= r < Z.of_nat (length (Election.tracked st))
      /\ first_slot (Election.tracked st) id (Z.to_nat r)).
Proof.
  cbv zeta. unfold Election.find_device_index. split; [split|].
  - apply find_loop_neg. lia.
  - apply find_loop_missing.
  - intros Hr.
    destruct (decide (id ∈ (Election.device_id <$> Election.tracked st)))
      as [Hin|Hnot]; [|now rewrite find_loop_missing in Hr].
    destruct (find_loop_found _ 0 id Hin) as (k & d & E & Hl & Hd & F).
    rewrite E, Z.add_0_l, Nat2Z.id. split.
    + apply lookup_lt_Some in Hl. lia.
    + split; eauto.
Qed.

Lemma find_device_index_first_witness :
  Election.find_device_index lapsed 200 = 1
  /\ Election.find_device_index lapsed 77 = -1.
Proof.
  destruct (find_device_index_first lapsed 77) as [[_ Hmiss] _].
  split; [reflexivity|]. apply Hmiss. vm_compute.
  intros H. repeat (apply elem_of_cons in H as [H|H]; [discriminate|]).
  now apply not_elem_of_nil in H.
Defined.

(** X8.  An observation is found again: when the identifier is tracked, or
    fewer than 255 devices are, [find_device_index] after
    [edtsp_update_device] returns a slot that holds the identifier with the
    observed timestamp and role and the active flag set. *)
Theorem observed_then_found (st : Election.state) (id ts r : Z) :
  Election.wf st ->
  id ∈ (Election.device_id <$> Election.tracked st)
  \/ Election.device_count st < 255 ->
  let st' := (Election.edtsp_update_device id ts r st).1 in
  exists k : nat,
    Election.find_device_index st' id = Z.of_nat k
    /\ Election.device_list st' !! k
       = Some {| Election.device_id := id;
                 Election.last_heartbeat_ms := ts;
                 Election.role := r;
                 Election.active := true |}
    /\ id ∈ Election.active_ids st'.
Proof.
  intros Hwf Hcase. cbv zeta.
  destruct (stored_then_found st id ts r Hwf Hcase) as (k & Hk & Hl).
  exists k. split; [now apply find_first_slot|]. split.
  - unfold Election.tracked in Hl. now apply lookup_take_Some in Hl as [? _].
  - unfold Election.active_ids. apply list_elem_of_fmap.
    eexists. split; [|apply list_elem_of_filter; split;
                       [|eapply list_elem_of_lookup_2; exact Hl]];
      reflexivity.
Qed.

Lemma observed_then_found_witness :
  exists k : nat,
    Election.find_device_index
      (Election.edtsp_update_device 300 9 EDTSP_ROLE_SLAVE lapsed).1 300
    = Z.of_nat k
    /\ 300 ∈ Election.active_ids
               (Election.edtsp_update_device 300 9 EDTSP_ROLE_SLAVE lapsed).1.
Proof.
  destruct (observed_then_found lapsed 300 9 EDTSP_ROLE_SLAVE)
    as (k & Hf & _ & Ha).
  - split; [reflexivity|vm_compute; split; congruence].
  - right. vm_compute. reflexivity.
  - exists k. split; assumption.
Defined.

(** ** Capacity, in general *)

(** X9.  The capacity guard is dead code.  In every state with the table
    at its size and the counter in range, an identifier that is not
    tracked is stored in slot [device_count] and announced as a new device;
    [Device list full] is never printed, whatever the identifier. *)
Theorem table_never_full (st : Election.state) (id ts r : Z) :
  Election.wf st ->
  (Election.LogDeviceListFull ∉ (Election.edtsp_update_device id ts r st).2)
  /\ (id ∉ (Election.device_id <$> Election.tracked st) ->
      (Election.edtsp_update_device id ts r st).2 = [Election.LogNewDevice id]
      /\ Election.device_list (Election.edtsp_update_device id ts r st).1
           !! Z.to_nat (Election.device_count st)
         = Some {| Election.device_id := id;
                   Election.last_heartbeat_ms := ts;
                   Election.role := r;
                   Election.active := true |}
      /\ Election.device_count (Election.edtsp_update_device id ts r st).1
         = (Election.device_count st + 1) mod 256).
Proof.
  intros Hwf. split; [now apply device_list_full_never_printed|].
  intros Hnot. destruct Hwf as [Hlen Hc].
  rewrite unknown_device_always_stored by assumption.
  cbn [fst snd Election.with_devices Election.device_list
       Election.device_count].
  split; [reflexivity|]. split; [|reflexivity].
  assert (Hn : (Z.to_nat (Election.device_count st)
                < length (Election.device_list st))%nat).
  { rewrite Hlen. unfold EDTSP_MAX_DEVICES. lia. }
  destruct (lookup_lt_is_Some_2 _ _ Hn) as [d Hd].
  now rewrite !list_lookup_alter_eq, Hd.
Qed.

Lemma table_never_full_witness :
  (Election.edtsp_update_device 2000 1 EDTSP_ROLE_SLAVE crowded).2
  = [Election.LogNewDevice 2000].
Proof.
  destruct (table_never_full crowded 2000 1 EDTSP_ROLE_SLAVE) as [_ H].
  - split; [vm_compute; reflexivity|vm_compute; split; congruence].
  - apply H. vm_compute. apply not_elem_of_nil.
Defined.

(** X10.  The 256th device empties the view.  With 255 devices tracked, an
    observation of one more wraps the counter to 0: no device is tracked
    any more, the device just stored is not found, the active count is 1
    and the next election makes self Master. *)
Theorem counter_wraps_at_255 (st : Election.state) (id ts r : Z) :
  Election.wf st ->
  Election.device_count st = 255 ->
  id ∉ (Election.device_id <$> Election.tracked st) ->
  let st' := (Election.edtsp_update_device id ts r st).1 in
  Election.device_count st' = 0
  /\ Election.tracked st' = []
  /\ Election.find_device_index st' id = -1
  /\ Election.edtsp_get_active_device_count st' = 1
  /\ Election.my_role (Election.edtsp_perform_election st').1
     = EDTSP_ROLE_MASTER.
Proof.
  intros [Hlen Hc] H255 Hnot. cbv zeta.
  rewrite unknown_device_always_stored by assumption.
  cbn [fst]. rewrite H255.
  unfold Election.find_device_index, Election.edtsp_get_active_device_count,
    Election.edtsp_perform_election, Election.highest_active, Election.tracked,
    Election.with_devices.
  cbn [Election.device_list Election.device_count Election.my_device_id].
  change ((255 + 1) mod 256) with 0. change (Z.to_nat 0) with 0%nat.
  rewrite take_0. simpl. rewrite Z.eqb_refl. repeat split.
Qed.

Lemma counter_wraps_at_255_witness :
  Election.tracked (Election.edtsp_update_device 256 0 EDTSP_ROLE_SLAVE busy).1
  = [].
Proof.
  destruct (counter_wraps_at_255 busy 256 0 EDTSP_ROLE_SLAVE) as (_ & H & _).
  - split; [vm_compute; reflexivity|vm_compute; split; congruence].
  - vm_compute. reflexivity.
  - refine (bool_decide_unpack _ _). vm_compute. exact I.
  - exact H.
Defined.

(** ** The timeout sweep, slot by slot *)

Section SweepEffect.

Import Election.

Lemma sweep_map now l :
  (sweep now l).1.1 = expire now <$> l.
Proof.
  induction l as [|d l IH]; simpl; [reflexivity|].
  destruct (sweep now l) as [[tl' ch] lg]; simpl in *.
  unfold expire at 1. destruct (active d); simpl.
  - destruct (_ <? _); simpl; now rewrite IH.
  - now rewrite IH.
Qed.

Lemma sweep_changed_iff now l :
  (sweep now l).1.2 = true <-> exists d, d ∈ l /\ expire now d <> d.
Proof.
  induction l as [|d l IH]; simpl.
  - split; [discriminate|]. intros (d & Hd & _). inversion Hd.
  - destruct (sweep now l) as [[tl' ch] lg]; simpl in *.
    assert (Hrest : ch = true -> exists d0, d0 ∈ d :: l /\ expire now d0 <> d0).
    { intros H. apply IH in H as (d0 & ? & ?). exists d0.
      split; [now apply list_elem_of_further|assumption]. }
    assert (Hback : (exists d0, d0 ∈ d :: l /\ expire now d0 <> d0) ->
                    expire now d = d -> ch = true).
    { intros (d0 & [->|Hin]%elem_of_cons & Hne) Hd; [contradiction|].
      apply IH. eauto. }
    unfold expire in Hback.
    destruct (active d) eqn:Ea; simpl in *.
    + destruct (_ <? _) eqn:El; simpl in *.
      * split; [|reflexivity]. intros _. exists d.
        split; [apply list_elem_of_here|].
        unfold expire. rewrite Ea, El. simpl.
        intros E. apply (f_equal active) in E. simpl in E. congruence.
      * split; [exact Hrest|]. intros H. now apply Hback.
    + split; [exact Hrest|]. intros H. now apply Hback.
Qed.

End SweepEffect.

(** X11.  A timeout sweep touches nothing but active flags of tracked
    slots: each tracked record stays as it is unless it is active and more
    than 5000 ms (as a [uint64_t] difference) passed since its timestamp,
    and then only its flag is cleared.  Slots beyond the counter, the
    counter and the own identifier are kept, no identifier becomes active,
    and a change is reported exactly when a flag was cleared. *)
Theorem sweep_clears_only_expired (st : Election.state) (now : Z) :
  let st' := (Election.edtsp_check_timeouts now st).1 in
  Election.tracked st' = expire now <$> Election.tracked st
  /\ drop (Z.to_nat (Election.device_count st)) (Election.device_list st')
     = drop (Z.to_nat (Election.device_count st)) (Election.device_list st)
  /\ Election.device_count st' = Election.device_count st
  /\ Election.my_device_id st' = Election.my_device_id st
  /\ Election.active_ids st' ⊆ Election.active_ids st
  /\ ((Election.sweep now (Election.tracked st)).1.2 = true
      <-> exists d, d ∈ Election.tracked st /\ expire now d <> d).
Proof.
  cbv zeta.
  assert (Ht : Election.tracked (Election.edtsp_check_timeouts now st).1
               = expire now <$> Election.tracked st).
  { now rewrite tracked_check_timeouts, sweep_map. }
  split; [exact Ht|]. split; [|split; [|split; [|split]]].
  - unfold Election.edtsp_check_timeouts.
    pose proof (sweep_length now (Election.tracked st)) as Hl.
    destruct (Election.sweep now (Election.tracked st)) as [[swept ch] lg];
      simpl in Hl.
    destruct (tracked_after_sweep swept (Election.device_list st)
                (Z.to_nat (Election.device_count st)) Hl) as [_ Hd].
    apply app_inv_head in Hd.
    destruct ch; simpl; exact Hd.
  - unfold Election.edtsp_check_timeouts.
    destruct (Election.sweep now (Election.tracked st)) as [[swept ch] lg].
    now destruct ch.
  - unfold Election.edtsp_check_timeouts.
    destruct (Election.sweep now (Election.tracked st)) as [[swept ch] lg].
    now destruct ch.
  - unfold Election.active_ids. rewrite Ht. intros x Hx.
    apply list_elem_of_fmap in Hx as (d' & -> & Hd').
    apply list_elem_of_filter in Hd' as [Ha Hd'].
    apply list_elem_of_fmap in Hd' as (d & -> & Hd).
    apply list_elem_of_fmap. exists d. split.
    + unfold expire. now destruct (_ && _).
    + apply list_elem_of_filter. split; [|exact Hd].
      unfold expire in Ha. destruct (Election.active d) eqn:E; [reflexivity|].
      simpl in Ha. congruence.
  - apply sweep_changed_iff.
Qed.

(** X12.  A clock that steps back times devices out.  The elapsed time is
    an unsigned difference, so a tracked active record whose timestamp is
    later than the sweep time, by less than 2^64 - 5000, is cleared and its
    timeout is printed with the wrapped difference. *)
Theorem later_timestamp_times_out (st : Election.state) (now : Z) (k : nat)
    (d : Election.EDTSPDeviceInfo) :
  Election.tracked st !! k = Some d ->
  Election.active d = true ->
  now < Election.last_heartbeat_ms d < now + (2 ^ 64 - 5000) ->
  Election.tracked (Election.edtsp_check_timeouts now st).1 !! k
  = Some (Election.set_inactive d)
  /\ Election.LogDeviceTimeout (Election.device_id d)
       (2 ^ 64 - (Election.last_heartbeat_ms d - now))
     ∈ (Election.edtsp_check_timeouts now st).2.
Proof.
  intros Hk Ha Ht.
  assert (He : u64 (now - Election.last_heartbeat_ms d)
               = 2 ^ 64 - (Election.last_heartbeat_ms d - now)).
  { unfold u64.
    replace (now - Election.last_heartbeat_ms d)
      with (2 ^ 64 - (Election.last_heartbeat_ms d - now) + (-1) * 2 ^ 64)
      by lia.
    rewrite Z.mod_add by lia. apply Z.mod_small. lia. }
  split.
  - rewrite tracked_check_timeouts, sweep_map, list_lookup_fmap, Hk. simpl.
    unfold expire. rewrite Ha, He. simpl.
    unfold EDTSP_HEARTBEAT_TIMEOUT_MS. now decide_cmp.
  - assert (Hin : Election.LogDeviceTimeout (Election.device_id d)
                    (2 ^ 64 - (Election.last_heartbeat_ms d - now))
                  ∈ (Election.sweep now (Election.tracked st)).2).
    { apply list_elem_of_lookup_2 in Hk. revert Hk.
      generalize (Election.tracked st). intros l.
      induction l as [|d0 l IH]; intros Hin; [inversion Hin|]. simpl.
      destruct (Election.sweep now l) as [[tl' ch] lg]; simpl in *.
      apply elem_of_cons in Hin as [<-|Hin].
      - rewrite Ha, He. simpl. unfold EDTSP_HEARTBEAT_TIMEOUT_MS.
        decide_cmp. simpl. apply list_elem_of_here.
      - specialize (IH Hin). destruct (Election.active d0); simpl; [|exact IH].
        destruct (_ <? _); simpl; [|exact IH].
        now apply list_elem_of_further. }
    unfold Election.edtsp_check_timeouts.
    destruct (Election.sweep now (Election.tracked st)) as [[swept ch] lg];
      simpl in *.
    destruct ch; simpl; [|exact Hin].
    apply elem_of_app. now left.
Qed.

Lemma later_timestamp_times_out_witness :
  Election.active_ids (Pc.election watching) = [50; 200]
  /\ Election.active_ids
       (Election.edtsp_check_timeouts 1000 (Pc.election watching)).1 = [200]
  /\ Election.LogDeviceTimeout 50 (2 ^ 64 - 2000)
     ∈ (Election.edtsp_check_timeouts 1000 (Pc.election watching)).2.
Proof.
  destruct (later_timestamp_times_out (Pc.election watching) 1000 0
              {| Election.device_id := 50; Election.last_heartbeat_ms := 3000;
                 Election.role := EDTSP_ROLE_SLAVE; Election.active := true |})
    as [_ Hlog].
  - vm_compute. reflexivity.
  - reflexivity.
  - simpl. lia.
  - split; [vm_compute; reflexivity|]. split; [vm_compute; reflexivity|].
    exact Hlog.
Defined.

(** ** Agreement *)

(** X13.  Two devices that see the same participants elect the same
    Master: when the active identifiers of each, with its own identifier
    added, form the same set, both scans end with the same identifier, at
    most one of the two becomes Master, and each is Master exactly when it
    is that identifier. *)
Theorem same_view_same_master (e1 e2 : Election.state) :
  active_set e1 ∪ {[Election.my_device_id e1]}
  = active_set e2 ∪ {[Election.my_device_id e2]} ->
  Election.highest_active e1 = Election.highest_active e2
  /\ (Election.my_role (Election.edtsp_perform_election e1).1
      = EDTSP_ROLE_MASTER
      <-> Election.my_device_id e1 = Election.highest_active e2)
  /\ (Election.my_role (Election.edtsp_perform_election e1).1
      = EDTSP_ROLE_MASTER ->
      Election.my_role (Election.edtsp_perform_election e2).1
      = EDTSP_ROLE_MASTER ->
      Election.my_device_id e1 = Election.my_device_id e2).
Proof.
  intros Hview.
  pose proof (highest_active_is_max e1) as H1.
  pose proof (highest_active_is_max e2) as H2.
  rewrite Hview in H1.
  assert (E : Election.highest_active e1 = Election.highest_active e2)
    by (eapply is_max_unique; eassumption).
  split; [exact E|]. split.
  - rewrite master_iff_highest, E. split; intros H; now symmetry.
  - intros M1 M2. apply master_iff_highest in M1, M2. congruence.
Qed.

Lemma same_view_same_master_witness :
  Election.highest_active node_100 = Election.highest_active node_200
  /\ Election.highest_active node_200 = 200.
Proof.
  destruct (same_view_same_master node_100 node_200) as [H _].
  - unfold active_set.
    replace (Election.active_ids node_100) with [50; 200]
      by (vm_compute; reflexivity).
    replace (Election.active_ids node_200) with [100; 50]
      by (vm_compute; reflexivity).
    change (Election.my_device_id node_100) with 100.
    change (Election.my_device_id node_200) with 200.
    apply set_eq. intros x.
    rewrite !elem_of_union, !elem_of_list_to_set, !elem_of_singleton,
      !elem_of_cons, !elem_of_nil. tauto.
  - split; [exact H|reflexivity].
Defined.

(** X14.  Hearing a larger identifier demotes.  When a heartbeat from a
    device with a larger identifier than the own one is stored (the device
    is tracked already, or fewer than 255 are), the role after the handler
    is Slave. *)
Theorem larger_peer_makes_slave (st : Pc.state)
    (pkt : Heartbeat.EDTSPHeartbeatPacket) (now : Z) :
  Election.wf (Pc.election st) ->
  source_id (Heartbeat.header pkt)
    ∈ (Election.device_id <$> Election.tracked (Pc.election st))
  \/ Election.device_count (Pc.election st) < 255 ->
  Election.my_device_id (Pc.election st) < source_id (Heartbeat.header pkt) ->
  Election.my_role (Pc.election (Pc.handle_heartbeat pkt now st).1)
  = EDTSP_ROLE_SLAVE.
Proof.
  intros Hwf Hcase Hlt.
  set (src := source_id (Heartbeat.header pkt)) in *.
  assert (E : Pc.election (Pc.handle_heartbeat pkt now st).1
              = (Election.edtsp_perform_election
                   (Election.edtsp_update_device src now (Heartbeat.role pkt)
                      (Pc.election st)).1).1).
  { unfold Pc.handle_heartbeat; simpl. fold src.
    destruct (Election.edtsp_update_device _ _ _ _) as [e1 lg1]. reflexivity. }
  rewrite E, elected_role.
  set (e1 := (Election.edtsp_update_device src now (Heartbeat.role pkt)
                (Pc.election st)).1).
  destruct (stored_then_found (Pc.election st) src now (Heartbeat.role pkt)
              Hwf Hcase) as (k & _ & Hl).
  fold e1 in Hl.
  assert (Hin : src ∈ Election.active_ids e1).
  { unfold Election.active_ids. apply list_elem_of_fmap.
    eexists. split; [|apply list_elem_of_filter; split;
                       [|eapply list_elem_of_lookup_2; exact Hl]];
      reflexivity. }
  assert (Hid : Election.my_device_id e1 = Election.my_device_id (Pc.election st)).
  { unfold e1, Election.edtsp_update_device.
    destruct (_ =? -1); [destruct (_ <=? _)|]; reflexivity. }
  rewrite highest_active_max.
  destruct (foldr_max_ge (Election.active_ids e1) (Election.my_device_id e1))
    as [_ Hall].
  specialize (Hall src Hin).
  destruct (Z.eqb_spec (foldr Z.max (Election.my_device_id e1)
                          (Election.active_ids e1))
              (Election.my_device_id e1)); [lia|reflexivity].
Qed.

Lemma larger_peer_makes_slave_witness :
  Election.my_role (Pc.election (Pc.startup 100)) = EDTSP_ROLE_UNKNOWN
  /\ Election.my_role
       (Pc.election
          (Pc.handle_heartbeat (heartbeat_from 200 EDTSP_ROLE_UNKNOWN) 0
             (Pc.startup 100)).1)
     = EDTSP_ROLE_SLAVE.
Proof.
  split; [reflexivity|].
  refine (larger_peer_makes_slave (Pc.startup 100)
            (heartbeat_from 200 EDTSP_ROLE_UNKNOWN) 0 _ _ _).
  - split; [vm_compute; reflexivity|vm_compute; split; congruence].
  - right. vm_compute. reflexivity.
  - vm_compute. reflexivity.
Defined.

(** ** What the receive path keeps and what it ignores *)

Section Receive.

Import Election.

Lemma update_device_keeps_id id ts r st :
  my_device_id (edtsp_update_device id ts r st).1 = my_device_id st.
Proof.
  unfold edtsp_update_device.
  destruct (_ =? -1); [destruct (_ <=? _)|]; reflexivity.
Qed.

Lemma check_timeouts_keeps_id now st :
  my_device_id (edtsp_check_timeouts now st).1 = my_device_id st.
Proof.
  unfold edtsp_check_timeouts.
  destruct (sweep now (tracked st)) as [[swept ch] lg]. now destruct ch.
Qed.

Lemma handle_heartbeat_state pkt now st :
  (Pc.handle_heartbeat pkt now st).1
  = Pc.with_election
      (edtsp_perform_election
         (edtsp_update_device (source_id (Heartbeat.header pkt)) now
            (Heartbeat.role pkt) (Pc.election st)).1).1 st.
Proof.
  unfold Pc.handle_heartbeat; simpl.
  destruct (edtsp_update_device _ _ _ _) as [e1 lg1]. reflexivity.
Qed.

Lemma handle_discovery_state pkt now st :
  (Pc.handle_discovery pkt now st).1
  = Pc.with_election
      (edtsp_perform_election
         (edtsp_update_device (source_id (Discovery.header pkt)) now
            EDTSP_ROLE_UNKNOWN (Pc.election st)).1).1 st.
Proof.
  unfold Pc.handle_discovery; simpl.
  destruct (edtsp_update_device _ _ _ _) as [e1 lg1]. reflexivity.
Qed.

(** The states [receive_packets] can leave: the one it found, or the one
    an observation of some identifier and role followed by an election
    makes of it. *)
Lemma receive_packets_cases buffer bytes now st :
  (Pc.receive_packets buffer bytes now st).1 = st
  \/ exists id r,
       (Pc.receive_packets buffer bytes now st).1
       = Pc.with_election
           (edtsp_perform_election
              (edtsp_update_device id now r (Pc.election st)).1).1 st.
Proof.
  unfold Pc.receive_packets.
  destruct (u64 bytes <? sizeof_EDTSPHeader); [now left|].
  destruct (edtsp_parse_header (Some (Pc.header_at buffer))) as [[|] [hc|]];
    try (now left).
  destruct (source_id hc =? Pc.my_id st); [now left|].
  destruct (type hc =? EDTSP_TYPE_DISCOVERY).
  - destruct (_ <=? _); [|now left]. right.
    rewrite handle_discovery_state. eauto.
  - destruct (type hc =? EDTSP_TYPE_HEARTBEAT); [|now left].
    destruct (_ <=? _); [|now left]. right.
    rewrite handle_heartbeat_state. eauto.
Qed.

End Receive.

(** X15.  The process keeps its shape.  From a state whose table has its
    256 slots and whose counter fits a byte, a received buffer and a
    timeout check lead to such a state again, and neither changes the own
    identifier of the process or of the election module; the state after
    start-up is such a state, with the two identifiers equal. *)
Theorem process_invariant (st : Pc.state) (buffer : list Z) (bytes now : Z) :
  Election.wf (Pc.election st) ->
  (Election.wf (Pc.election (Pc.receive_packets buffer bytes now st).1)
   /\ Pc.my_id (Pc.receive_packets buffer bytes now st).1 = Pc.my_id st
   /\ Election.my_device_id
        (Pc.election (Pc.receive_packets buffer bytes now st).1)
      = Election.my_device_id (Pc.election st))
  /\ (Election.wf (Pc.election (Pc.check_timeouts now st).1)
      /\ Pc.my_id (Pc.check_timeouts now st).1 = Pc.my_id st
      /\ Election.my_device_id (Pc.election (Pc.check_timeouts now st).1)
         = Election.my_device_id (Pc.election st))
  /\ (forall id, Election.wf (Pc.election (Pc.startup id))
                 /\ Election.my_device_id (Pc.election (Pc.startup id))
                    = Pc.my_id (Pc.startup id)).
Proof.
  intros Hwf. split; [|split].
  - destruct (receive_packets_cases buffer bytes now st) as [->|(id & r & ->)].
    + auto.
    + cbn [Pc.election Pc.my_id Pc.with_election].
      split; [|split; [reflexivity|]].
      * apply wf_perform_election, wf_update_device, Hwf.
      * apply update_device_keeps_id.
  - unfold Pc.check_timeouts, Pc.lift.
    cbn [fst Pc.election Pc.my_id Pc.with_election].
    split; [now apply wf_check_timeouts|].
    split; [reflexivity|apply check_timeouts_keeps_id].
  - intros id. split; [apply wf_init|reflexivity].
Qed.

Lemma process_invariant_witness :
  Election.wf
    (Pc.election (Pc.receive_packets heartbeat_2000 14 1 crowded_pc).1).
Proof.
  assert (H : Election.wf (Pc.election crowded_pc)).
  { split; [vm_compute; reflexivity|vm_compute; split; congruence]. }
  exact (proj1 (proj1 (process_invariant crowded_pc heartbeat_2000 14 1 H))).
Defined.

(** X16.  What the receive path ignores.  [receive_packets] changes the
    state only for a buffer of at least 8 bytes whose header has the
    magic, comes from another device, and is a Discovery of at least 42
    bytes or a Heartbeat of at least 14.  Short, foreign, own, truncated,
    Handshake, Config and Data packets leave the state as it was. *)
Theorem receive_ignores (buffer : list Z) (bytes now : Z) (st : Pc.state) :
  (Pc.receive_packets buffer bytes now st).1 <> st ->
  let h := Pc.header_at buffer in
  8 <= u64 bytes
  /\ edtsp_swap16 (magic h) = EDTSP_MAGIC
  /\ edtsp_swap32 (source_id h) <> Pc.my_id st
  /\ ((type h = EDTSP_TYPE_DISCOVERY /\ 42 <= u64 bytes)
      \/ (type h = EDTSP_TYPE_HEARTBEAT /\ 14 <= u64 bytes)).
Proof.
  cbv zeta. unfold Pc.receive_packets, sizeof_EDTSPHeader,
    Discovery.sizeof_EDTSPDiscoveryPacket, Heartbeat.sizeof_EDTSPHeartbeatPacket.
  destruct (Z.ltb_spec (u64 bytes) 8); [now intros []|].
  pose proof (parse_header_verdict (Pc.header_at buffer)) as Hv.
  unfold edtsp_parse_header in *.
  destruct (edtsp_header_valid _) eqn:Hvalid; cbn [fst] in Hv;
    [|now intros []].
  cbn [source_id type].
  assert (Hm : edtsp_swap16 (magic (Pc.header_at buffer)) = EDTSP_MAGIC).
  { destruct (Z.eq_dec (edtsp_swap16 (magic (Pc.header_at buffer)))
                EDTSP_MAGIC) as [E|E]; [exact E|].
    assert (true = false) by (apply Hv; now left). discriminate. }
  unfold EDTSP_NTOHL.
  destruct (Z.eqb_spec (edtsp_swap32 (source_id (Pc.header_at buffer)))
              (Pc.my_id st)); [now intros []|].
  destruct (Z.eqb_spec (type (Pc.header_at buffer)) EDTSP_TYPE_DISCOVERY).
  - destruct (Z.leb_spec 42 (u64 bytes)); [|now intros []].
    intros _. repeat split; auto; lia.
  - destruct (Z.eqb_spec (type (Pc.header_at buffer)) EDTSP_TYPE_HEARTBEAT);
      [|now intros []].
    destruct (Z.leb_spec 14 (u64 bytes)); [|now intros []].
    intros _. repeat split; auto; lia.
Qed.

Lemma receive_ignores_witness :
  type (Pc.header_at heartbeat_2000) = EDTSP_TYPE_HEARTBEAT
  /\ edtsp_swap32 (source_id (Pc.header_at heartbeat_2000)) = 2000.
Proof.
  destruct (receive_ignores heartbeat_2000 14 1 crowded_pc)
    as (_ & _ & _ & Hkind).
  - intros E.
    apply (f_equal (fun s => Election.my_role (Pc.election s))) in E.
    vm_compute in E. discriminate.
  - split; [|reflexivity].
    destruct Hkind as [[Hk _]|[Hk _]]; [|exact Hk].
    vm_compute in Hk. discriminate.
Defined.

(** X17.  A failed [recvfrom] is not noticed.  Its result is compared with
    the sizes as an unsigned number, so a negative result passes every
    length check and the bytes the buffer holds are handled like a full
    buffer of 512. *)
Theorem negative_length_passes (buffer : list Z) (bytes now : Z)
    (st : Pc.state) :
  - 2 ^ 63 <= bytes < 0 ->
  Pc.receive_packets buffer bytes now st
  = Pc.receive_packets buffer 512 now st.
Proof.
  intros Hb.
  assert (E : u64 bytes = bytes + 2 ^ 64).
  { unfold u64. replace bytes with (bytes + 2 ^ 64 + (-1) * 2 ^ 64) at 1 by lia.
    rewrite Z.mod_add by lia. apply Z.mod_small. lia. }
  unfold Pc.receive_packets, sizeof_EDTSPHeader,
    Discovery.sizeof_EDTSPDiscoveryPacket, Heartbeat.sizeof_EDTSPHeartbeatPacket.
  rewrite E. change (u64 512) with 512.
  now decide_cmp.
Qed.

Lemma negative_length_passes_witness :
  Election.active_ids
    (Pc.election (Pc.receive_packets heartbeat_2000 (-1) 1 (Pc.startup 1000)).1)
  = [2000].
Proof.
  rewrite (negative_length_passes heartbeat_2000 (-1) 1 (Pc.startup 1000))
    by lia.
  vm_compute. reflexivity.
Defined.

(** ** The persistent identifier *)

Section Identifier.

Import PersistentId.

Lemma generate_random_id_nonzero e : generate_random_id e <> 0.
Proof.
  unfold generate_random_id.
  destruct (Z.eqb_spec (match urandom e with
                        | Some v => v
                        | None => u32 (u32 (rand1 e) * u32 (rand2 e))
                        end) 0); [discriminate|assumption].
Qed.

Lemma generate_random_id_range e :
  (forall v, urandom e = Some v -> is_u32 v) -> is_u32 (generate_random_id e).
Proof.
  intros Hv. unfold generate_random_id.
  assert (H : is_u32 (match urandom e with
                      | Some v => v
                      | None => u32 (u32 (rand1 e) * u32 (rand2 e))
                      end)).
  { destruct (urandom e) as [v|]; [now apply Hv|].
    unfold is_u32, u32. apply Z.mod_pos_bound. lia. }
  destruct (_ =? 0); [unfold is_u32; lia|exact H].
Qed.

Lemma load32_store32 v rest :
  is_u32 v -> Pc.load32 (Pc.store32 v ++ rest) 0 = v.
Proof.
  intros Hv. unfold Pc.load32, Pc.store32, Pc.byte_at.
  cbn [app lookup list_lookup default from_option id Nat.add].
  now apply bytes_of_u32.
Qed.

Lemma get_device_id_cases w e :
  writable w = true ->
  (exists bytes,
     id_file w = Some bytes /\ (4 <=? length bytes)%nat = true
     /\ Pc.load32 bytes 0 <> 0
     /\ edtsp_get_device_id w e
        = (Pc.load32 bytes 0, w, [IdLoaded (Pc.load32 bytes 0)]))
  \/ edtsp_get_device_id w e
     = (generate_random_id e,
        {| id_file := Some (Pc.store32 (generate_random_id e));
           writable := true |},
        [IdGenerated (generate_random_id e); IdSaved]).
Proof.
  intros Hw. unfold edtsp_get_device_id. rewrite Hw.
  destruct (id_file w) as [bytes|] eqn:Ef; [|now right].
  destruct ((4 <=? length bytes)%nat) eqn:E4; simpl; [|now right].
  destruct (Z.eqb_spec (Pc.load32 bytes 0) 0); simpl; [now right|].
  left. exists bytes. auto.
Qed.

End Identifier.

(** X18.  The device identifier is never 0, whatever the identifier file
    holds and whatever the random sources give: a stored 0 is not loaded
    and a generated 0 is replaced by 1. *)
Theorem device_id_never_zero (w : PersistentId.world)
    (e : PersistentId.entropy) :
  (PersistentId.edtsp_get_device_id w e).1.1 <> 0
  /\ PersistentId.generate_random_id e <> 0.
Proof.
  split; [|apply generate_random_id_nonzero].
  unfold PersistentId.edtsp_get_device_id.
  assert (Hgen : (if PersistentId.writable w
                  then (PersistentId.generate_random_id e,
                        {| PersistentId.id_file :=
                             Some (Pc.store32 (PersistentId.generate_random_id e));
                           PersistentId.writable := PersistentId.writable w |},
                        [PersistentId.IdGenerated
                           (PersistentId.generate_random_id e);
                         PersistentId.IdSaved])
                  else (PersistentId.generate_random_id e, w,
                        [PersistentId.IdGenerated
                           (PersistentId.generate_random_id e);
                         PersistentId.IdNotSaved])).1.1 <> 0).
  { destruct (PersistentId.writable w); apply generate_random_id_nonzero. }
  destruct (PersistentId.id_file w) as [bytes|]; [|exact Hgen].
  destruct ((4 <=? length bytes)%nat); simpl; [|exact Hgen].
  destruct (Z.eqb_spec (Pc.load32 bytes 0) 0); simpl; [exact Hgen|assumption].
Qed.

(** X19.  The identifier persists.  When the identifier file can be
    written, the identifier a call returns is the one every later call
    returns, loaded from the file and whatever the random sources give
    then; the later calls leave the file as it is. *)
Theorem device_id_persists (w : PersistentId.world)
    (e e' : PersistentId.entropy) :
  PersistentId.writable w = true ->
  (forall v, PersistentId.urandom e = Some v -> is_u32 v) ->
  let id := (PersistentId.edtsp_get_device_id w e).1.1 in
  let w1 := (PersistentId.edtsp_get_device_id w e).1.2 in
  PersistentId.edtsp_get_device_id w1 e'
  = (id, w1, [PersistentId.IdLoaded id]).
Proof.
  intros Hw Hv. cbv zeta.
  destruct (get_device_id_cases w e Hw) as [(bytes & Ef & E4 & E0 & ->)| ->];
    cbn [fst snd].
  - unfold PersistentId.edtsp_get_device_id. rewrite Ef, E4. simpl.
    destruct (Z.eqb_spec (Pc.load32 bytes 0) 0); [contradiction|reflexivity].
  - unfold PersistentId.edtsp_get_device_id.
    cbn [PersistentId.id_file PersistentId.writable].
    pose proof (load32_store32 (PersistentId.generate_random_id e) []
                  (generate_random_id_range e Hv)) as El.
    rewrite app_nil_r in El. rewrite El.
    change ((4 <=? length (Pc.store32 (PersistentId.generate_random_id e)))%nat)
      with true.
    destruct (Z.eqb_spec (PersistentId.generate_random_id e) 0) as [E|E];
      [now apply generate_random_id_nonzero in E|reflexivity].
Qed.

Lemma device_id_persists_witness :
  PersistentId.edtsp_get_device_id
    {| PersistentId.id_file := None; PersistentId.writable := true |}
    {| PersistentId.urandom := Some 0; PersistentId.rand1 := 0;
       PersistentId.rand2 := 0 |}
  = (1, {| PersistentId.id_file := Some [1; 0; 0; 0];
           PersistentId.writable := true |},
     [PersistentId.IdGenerated 1; PersistentId.IdSaved])
  /\ PersistentId.edtsp_get_device_id
       {| PersistentId.id_file := Some [1; 0; 0; 0];
          PersistentId.writable := true |}
       {| PersistentId.urandom := Some 77; PersistentId.rand1 := 0;
          PersistentId.rand2 := 0 |}
     = (1, {| PersistentId.id_file := Some [1; 0; 0; 0];
              PersistentId.writable := true |},
        [PersistentId.IdLoaded 1]).
Proof.
  split; [reflexivity|].
  refine (device_id_persists
            {| PersistentId.id_file := None; PersistentId.writable := true |}
            {| PersistentId.urandom := Some 0; PersistentId.rand1 := 0;
               PersistentId.rand2 := 0 |}
            {| PersistentId.urandom := Some 77; PersistentId.rand1 := 0;
               PersistentId.rand2 := 0 |} eq_refl _).
  intros v Hv. simpl in Hv. inversion Hv. unfold is_u32. lia.
Defined.

(** ** Heartbeats between two processes *)

(** X20.  A heartbeat is sent big-endian: the magic as [ED 61], the
    identifier and the uptime high byte first, the single-byte fields as
    they are; the datagram has 14 bytes. *)
Theorem heartbeat_datagram_big_endian (pkt : Heartbeat.EDTSPHeartbeatPacket)
    (uptime : Z) (st : Pc.state) :
  Pc.send_heartbeat pkt uptime st
  = [0xED; 0x61; EDTSP_TYPE_HEARTBEAT;
     Pc.my_id st / 2 ^ 24 mod 2 ^ 8; Pc.my_id st / 2 ^ 16 mod 2 ^ 8;
     Pc.my_id st / 2 ^ 8 mod 2 ^ 8; Pc.my_id st mod 2 ^ 8;
     6;
     Election.my_role (Pc.election st);
     uptime / 2 ^ 24 mod 2 ^ 8; uptime / 2 ^ 16 mod 2 ^ 8;
     uptime / 2 ^ 8 mod 2 ^ 8; uptime mod 2 ^ 8;
     Election.edtsp_get_active_device_count (Pc.election st)].
Proof.
  unfold Pc.send_heartbeat, Heartbeat.edtsp_build_heartbeat,
    Pc.heartbeat_bytes.
  cbn [Heartbeat.header Heartbeat.role Heartbeat.uptime_ms
       Heartbeat.active_devices].
  rewrite header_on_the_wire.
  unfold Pc.store32, EDTSP_HTONL, Election.edtsp_get_my_role.
  rewrite <- (Z.div_1_r (edtsp_swap32 uptime)) at 1.
  change 1 with (2 ^ 0) at 1.
  rewrite !swap32_byte by lia.
  change (24 - 0) with 24. change (24 - 8) with 16.
  change (24 - 16) with 8. change (24 - 24) with 0.
  rewrite Z.pow_0_r, Z.div_1_r. reflexivity.
Qed.



Lemma discovery_over_the_wire_witness :
  (Pc.receive_packets
     (Pc.send_discovery Discovery.zero (replicate 40 66) (Pc.startup 2000))
     42 7 (Pc.startup 100)).2
  = [Pc.RxDiscovery 2000 (replicate 31 66) EDTSP_IFACE_ETH;
     Pc.Elect (Election.LogNewDevice 2000);
     Pc.Elect (Election.LogRoleChange EDTSP_ROLE_UNKNOWN EDTSP_ROLE_SLAVE
                 100 2000)].
Proof.
  pose proof (discovery_over_the_wire Discovery.zero (replicate 40 66)
                (Pc.startup 2000) (Pc.startup 100) [] 42 7) as H.
  rewrite app_nil_r in H.
  destruct H as [H _].
  - unfold is_u32. simpl. lia.
  - simpl. lia.
  - lia.
  - rewrite H. vm_compute. reflexivity.
Defined.

(** X22.  The payload length a sent packet announces is the number of
    bytes that follow its header: a heartbeat datagram has 14 bytes and
    announces 6, a Discovery datagram has 42 and announces 34. *)
Theorem payload_len_is_datagram_tail (hb : Heartbeat.EDTSPHeartbeatPacket)
    (dp : Discovery.EDTSPDiscoveryPacket) (uptime : Z) (hostname : list Z)
    (st : Pc.state) :
  (length (Pc.send_heartbeat hb uptime st) = 14%nat
   /\ Pc.byte_at (Pc.send_heartbeat hb uptime st) 7 = 6)
  /\ (length (Pc.send_discovery dp hostname st) = 42%nat
      /\ Pc.byte_at (Pc.send_discovery dp hostname st) 7 = 34).
Proof.
  split.
  - unfold Pc.send_heartbeat, Heartbeat.edtsp_build_heartbeat,
      Pc.heartbeat_bytes.
    cbn [Heartbeat.header]. rewrite header_on_the_wire. split; reflexivity.
  - unfold Pc.send_discovery, Discovery.edtsp_build_discovery,
      Pc.discovery_bytes.
    cbn [Discovery.header Discovery.interface_type Discovery.version
         Discovery.device_name Discovery.zero].
    rewrite header_on_the_wire.
    destruct (strncpy_zeroed hostname 31 32 ltac:(lia)) as (Hl & _ & _).
    unfold Discovery.sizeof_device_name. change (32 - 1)%nat with 31%nat.
    split; [|reflexivity].
    rewrite !length_app, Hl. reflexivity.
Qed.



(** ** Role names *)

(** X24.  After an election the role has a proper name: it is [MASTER] or
    [SLAVE], never [UNKNOWN] or [INVALID], and [edtsp_is_master] holds
    exactly when the name is [MASTER].  A role value is named [INVALID]
    exactly when it is none of 0, 1 and 2. *)
Theorem role_named_after_election (st : Election.state) (r : Z) :
  let st' := (Election.edtsp_perform_election st).1 in
  (edtsp_role_name (Election.edtsp_get_my_role st') = "MASTER"%string
   \/ edtsp_role_name (Election.edtsp_get_my_role st') = "SLAVE"%string)
  /\ (Election.edtsp_is_master st' = true
      <-> edtsp_role_name (Election.edtsp_get_my_role st') = "MASTER"%string)
  /\ (edtsp_role_name r = "INVALID"%string <-> ~ 0 <= r <= 2).
Proof.
  cbv zeta. unfold Election.edtsp_is_master, Election.edtsp_get_my_role.
  rewrite elected_role. split; [|split].
  - destruct (_ =? _); [now left|now right].
  - destruct (Election.highest_active st =? Election.my_device_id st);
      split; intros H; try reflexivity; discriminate.
  - unfold edtsp_role_name, EDTSP_ROLE_MASTER, EDTSP_ROLE_SLAVE,
      EDTSP_ROLE_UNKNOWN.
    repeat match goal with
           | |- context [?a =? ?b] => destruct (Z.eqb_spec a b)
           end; split; intros; try lia; try discriminate; reflexivity.
Qed.
